(** * Project analytics: KPI formulas, health scoring, cache and portfolio

    A shallow embedding of [src/analytics.py] (class [ProjectAnalytics]) and
    the properties of its earned-value formulas.

    Numbers.  The Python code computes on binary64 [float] (and on the [int]
    literals 0, 40, 100, ...).  The development has two layers.

    - The engine ([calculate_metrics], the cache, the portfolio loop) and the
      four formulas under it are embedded over the rationals [Q], every
      operation exact.  This layer carries the properties that do not depend
      on how a result is rounded: bounds, order, symmetry, which branch is
      taken, what is cached, how the portfolio loop aggregates.  It does not
      predict the last digit of a returned float.

    - Module [Float64] embeds the four formulas again over binary64, with the
      IEEE 754 operations of the kernel's primitive floats and Python's
      [round], [int], [min] and [max] on them.  This layer carries the
      statements about the value a call returns.  [np.mean] and the rounding
      of an [np.float64] belong to numpy and are parameters there.

    State.  The engine owns a dictionary [metrics_cache]; [calculate_metrics]
    writes it and reads the wall clock ([datetime.now()]).  Both are threaded
    explicitly: the cache as a [gmap], the clock as an oracle giving the
    time of the n-th reading. *)

From Stdlib Require Import QArith Qabs Qround Qminmax ZArith Lia Lqa List Floats.
From stdpp Require Import base option strings gmap.

Local Open Scope Z_scope.
Local Open Scope Q_scope.

(** ** Python numeric primitives over [Q] (exact arithmetic) *)

Module Py.

(** [a == b] on numbers. *)
Definition eqb (a b : Q) : bool := Qeq_bool a b.

(** [a >= b]. *)
Definition geb (a b : Q) : bool := Qle_bool b a.

(** [a > b]. *)
Definition gtb (a b : Q) : bool := negb (Qle_bool a b).

(** [min(a, b)]: the first argument unless the second is strictly smaller. *)
Definition min (a b : Q) : Q := if gtb a b then b else a.

(** [max(a, b)]: the first argument unless the second is strictly larger. *)
Definition max (a b : Q) : Q := if gtb b a then b else a.

(** [abs(x)]. *)
Definition abs (x : Q) : Q := Qabs x.

(** [int(x)]: truncation towards zero. *)
Definition int (x : Q) : Z := Z.quot (Qnum x) (Z.pos (Qden x)).

(** Nearest integer, ties to the even neighbour (the rule of [round]). *)
Definition round_half_even (x : Q) : Z :=
  let f := Qfloor x in
  match Qcompare (x - inject_Z f) (1 # 2) with
  | Lt => f
  | Gt => (f + 1)%Z
  | Eq => if Z.even f then f else (f + 1)%Z
  end.

(** [round(x, ndigits)] for [ndigits >= 0] on an exact number: the nearest
    multiple of [10 ** -ndigits], ties to even. *)
Definition round (x : Q) (ndigits : nat) : Q :=
  let scale := inject_Z (10 ^ Z.of_nat ndigits) in
  inject_Z (round_half_even (x * scale)) / scale.

(** [sum(l)]. *)
Definition sum (l : list Q) : Q := fold_left Qplus l 0.

(** [np.mean(l)] for a non-empty list, exactly: the sum over the length. *)
Definition mean (l : list Q) : Q := sum l / inject_Z (Z.of_nat (length l)).

End Py.

(** ** Constants of the module *)

Definition SCHEDULE_THRESHOLD_YELLOW : Q := 95 # 100.
Definition SCHEDULE_THRESHOLD_RED : Q := 85 # 100.
Definition COST_THRESHOLD_YELLOW : Q := 90 # 100.
Definition COST_THRESHOLD_RED : Q := 75 # 100.

(** ** Index calculators (exact arithmetic) *)

(** [calculate_schedule_performance_index]. *)
Definition calculate_schedule_performance_index (earned_value planned_value : Q) : Q :=
  if Py.eqb planned_value 0 then 0
  else
    let spi := earned_value / planned_value in
    Py.round spi 3.

(** [calculate_cost_performance_index]. *)
Definition calculate_cost_performance_index (earned_value actual_cost : Q) : Q :=
  if Py.eqb actual_cost 0 then 0
  else
    let cpi := earned_value / actual_cost in
    Py.round cpi 3.

(** ** Health classification (exact arithmetic) *)

(** [calculate_project_health]: the score is accumulated in place, as in the
    source, and the status is read off the accumulated score. *)
Definition calculate_project_health (spi cpi risk_score : Q) : string * Z :=
  let score := 0 in
  (* Schedule component (40% weight) *)
  let score :=
    if Py.geb spi 1 then score + 40
    else if Py.geb spi SCHEDULE_THRESHOLD_YELLOW then score + 25
    else if Py.geb spi SCHEDULE_THRESHOLD_RED then score + 10
    else score in
  (* Cost component (40% weight) *)
  let score :=
    if Py.geb cpi 1 then score + 40
    else if Py.geb cpi COST_THRESHOLD_YELLOW then score + 25
    else if Py.geb cpi COST_THRESHOLD_RED then score + 10
    else score in
  (* Risk component (20% weight) *)
  let risk_adjustment := Py.max 0 (20 * (1 - risk_score / 100)) in
  let score := score + risk_adjustment in
  let status :=
    if Py.geb score 75 then "Green"%string
    else if Py.geb score 50 then "Yellow"%string
    else "Red"%string in
  (status, Py.int score).

(** ** Risk scoring (exact arithmetic) *)

(** [calculate_risk_score].  [if risk_factors:] is the emptiness test of a
    Python list. *)
Definition calculate_risk_score (schedule_variance cost_variance : Q)
    (risk_factors : list Q) : Q :=
  let base_score := 0 in
  (* Schedule risk (30% weight) *)
  let schedule_risk := Py.min 100 (Py.abs schedule_variance * 10) in
  let base_score := base_score + schedule_risk * (3 # 10) in
  (* Cost risk (30% weight) *)
  let cost_risk := Py.min 100 (Py.abs cost_variance * 10) in
  let base_score := base_score + cost_risk * (3 # 10) in
  (* Other factors (40% weight) *)
  let base_score :=
    match risk_factors with
    | [] => base_score
    | _ :: _ =>
        let avg_factors := Py.mean risk_factors in
        base_score + avg_factors * (4 # 10)
    end in
  let final_score := Py.min 100 base_score in
  Py.round final_score 1.

(** ** Data model *)

(** The dataclass [ProjectMetrics]; [calculated_at] is a timestamp. *)
Record ProjectMetrics := {
  project_id : string;
  schedule_performance_index : Q;
  cost_performance_index : Q;
  budget_variance : Q;
  schedule_variance : Q;
  risk_score : Q;
  team_utilization : Q;
  completion_percentage : Q;
  health_status : string;
  calculated_at : Z
}.

(** The keyword arguments of [calculate_metrics], restricted to the eight
    names the method reads and to the types its callers pass (numbers, and a
    list of numbers for [risk_factors]).  [None] is an absent key. *)
Record Kwargs := {
  kw_earned_value : option Q;
  kw_planned_value : option Q;
  kw_actual_cost : option Q;
  kw_schedule_variance : option Q;
  kw_cost_variance : option Q;
  kw_completion_percentage : option Q;
  kw_team_utilization : option Q;
  kw_risk_factors : option (list Q)
}.

(** The empty dictionary [{}]. *)
Definition no_kwargs : Kwargs :=
  {| kw_earned_value := None; kw_planned_value := None; kw_actual_cost := None;
     kw_schedule_variance := None; kw_cost_variance := None;
     kw_completion_percentage := None; kw_team_utilization := None;
     kw_risk_factors := None |}.

(** [d.get(key, dflt)]. *)
Definition get {A} (field : option A) (dflt : A) : A :=
  match field with
  | Some v => v
  | None => dflt
  end.

(** The engine's mutable state, together with the number of clock readings
    made so far. *)
Record State := {
  metrics_cache : gmap string ProjectMetrics;
  ticks : nat
}.

(** [ProjectAnalytics()]: an empty cache. *)
Definition init : State := {| metrics_cache := ∅; ticks := 0 |}.

(** One entry of the [projects] list of [calculate_portfolio_metrics]: a
    dictionary with key ['id'] and, optionally, key ['data']. *)
Record Project := {
  proj_id : string;
  proj_data : option Kwargs
}.

(** The local variables of the loop of [calculate_portfolio_metrics]. *)
Record Loop := {
  portfolio_metrics : gmap string Q;
  health_scores : list Q;
  utilizations : list Q;
  schedule_indices : list Q
}.

Section Engine.

(** [clock n] is the time returned by the [n]-th call of [datetime.now()]. *)
Variable clock : nat -> Z.

(** [calculate_metrics]: returns the record and the state with the record
    cached under [project_id]. *)
Definition calculate_metrics (pid : string) (kwargs : Kwargs) (st : State)
    : ProjectMetrics * State :=
  let ev := get (kw_earned_value kwargs) 0 in
  let pv := get (kw_planned_value kwargs) 100 in
  let ac := get (kw_actual_cost kwargs) 0 in
  let sv := get (kw_schedule_variance kwargs) 0 in
  let cv := get (kw_cost_variance kwargs) 0 in
  let completion := get (kw_completion_percentage kwargs) 0 in
  let utilization := get (kw_team_utilization kwargs) 0 in
  (* Calculate indices *)
  let spi := calculate_schedule_performance_index ev pv in
  let cpi := if Py.gtb ac 0 then calculate_cost_performance_index ev ac else 1 in
  (* Calculate risk *)
  let risk_factors := get (kw_risk_factors kwargs) [] in
  let risk := calculate_risk_score sv cv risk_factors in
  (* Determine health *)
  let '(status, _) := calculate_project_health spi cpi risk in
  let metrics :=
    {| project_id := pid;
       schedule_performance_index := spi;
       cost_performance_index := cpi;
       budget_variance := cv;
       schedule_variance := sv;
       risk_score := risk;
       team_utilization := utilization;
       completion_percentage := completion;
       health_status := status;
       calculated_at := clock (ticks st) |} in
  (* Cache the result *)
  (metrics,
   {| metrics_cache := <[pid := metrics]> (metrics_cache st);
      ticks := S (ticks st) |}).

(** [get_project_metrics]: a lookup, the state is not touched. *)
Definition get_project_metrics (pid : string) (st : State) : option ProjectMetrics :=
  metrics_cache st !! pid.

(** The body of the [for proj in projects] loop. *)
Definition portfolio_step (acc : Loop * State) (proj : Project) : Loop * State :=
  let '(loc, st) := acc in
  let '(metrics, st) :=
    calculate_metrics (proj_id proj) (get (proj_data proj) no_kwargs) st in
  let loc :=
    {| portfolio_metrics := portfolio_metrics loc;
       health_scores := health_scores loc ++ [risk_score metrics];
       utilizations := utilizations loc ++ [team_utilization metrics];
       schedule_indices :=
         schedule_indices loc ++ [schedule_performance_index metrics] |} in
  let loc :=
    if String.eqb (health_status metrics) "Red" then
      {| portfolio_metrics :=
           alter (fun n => n + 1) "at_risk_count"%string (portfolio_metrics loc);
         health_scores := health_scores loc;
         utilizations := utilizations loc;
         schedule_indices := schedule_indices loc |}
    else loc in
  (loc, st).

(** [np.mean(xs) if xs else 0]. *)
Definition mean_or_zero (xs : list Q) : Q :=
  match xs with
  | [] => 0
  | _ :: _ => Py.mean xs
  end.

(** [calculate_portfolio_metrics]: the summary dictionary and the state
    after the per-project runs. *)
Definition calculate_portfolio_metrics (projects : list Project) (st : State)
    : gmap string Q * State :=
  match projects with
  | [] => (∅, st)
  | _ :: _ =>
      let pm : gmap string Q :=
        <["avg_schedule_health"%string := 0]>
        (<["avg_budget_utilization"%string := 0]>
        (<["at_risk_count"%string := 0]>
        (<["avg_health_score"%string := 0]>
        (<["total_projects"%string := inject_Z (Z.of_nat (length projects))]> ∅)))) in
      let loc0 :=
        {| portfolio_metrics := pm; health_scores := [];
           utilizations := []; schedule_indices := [] |} in
      let '(loc, st) := fold_left portfolio_step projects (loc0, st) in
      let pm := portfolio_metrics loc in
      let pm := <["avg_health_score"%string := mean_or_zero (health_scores loc)]> pm in
      let pm := <["avg_budget_utilization"%string := mean_or_zero (utilizations loc)]> pm in
      let pm := <["avg_schedule_health"%string := mean_or_zero (schedule_indices loc)]> pm in
      (pm, st)
  end.

End Engine.

(** ** The formulas as the specification words them

    These are written from the prose of the specification, with the order
    relations of [Q] and the library's [Qmin], [Qmax]; the theorems below
    compare them with the code above. *)

Module Spec.

(** "40 if x >= t1, else 25 if x >= t2, else 10 if x >= t3, else 0". *)
Definition tier (t1 t2 t3 x : Q) : Q :=
  if Qlt_le_dec x t1 then
    if Qlt_le_dec x t2 then
      if Qlt_le_dec x t3 then 0 else 10
    else 25
  else 40.

Definition schedule_component (spi : Q) : Q := tier 1 (95 # 100) (85 # 100) spi.

Definition cost_component (cpi : Q) : Q := tier 1 (90 # 100) (75 # 100) cpi.

(** "max(0, 20 * (1 - risk_score/100))". *)
Definition risk_adjustment (risk_score : Q) : Q :=
  Qmax 0 (20 * (1 - risk_score / 100)).

Definition health_score (spi cpi risk_score : Q) : Q :=
  schedule_component spi + cost_component cpi + risk_adjustment risk_score.

(** "S = min(100, |schedule_variance| * 10) * 0.3", and the same for cost. *)
Definition variance_component (variance : Q) : Q :=
  Qmin 100 (Qabs variance * 10) * (3 # 10).

(** "F = mean(risk_factors) * 0.4 if risk_factors is non-empty, else 0". *)
Definition factor_component (risk_factors : list Q) : Q :=
  match risk_factors with
  | [] => 0
  | _ :: _ => Py.mean risk_factors * (4 # 10)
  end.

(** "min(100, S + C + F)". *)
Definition risk_total (schedule_variance cost_variance : Q) (risk_factors : list Q) : Q :=
  Qmin 100 (variance_component schedule_variance
            + variance_component cost_variance
            + factor_component risk_factors).

(** An absent field replaced by its default, a present one kept. *)
Definition fill {A} (field : option A) (dflt : A) : option A :=
  match field with
  | None => Some dflt
  | Some v => Some v
  end.

(** The call with every default supplied explicitly: "earned_value=0,
    planned_value=100, actual_cost=0, schedule_variance=0, cost_variance=0,
    completion_percentage=0, team_utilization=0, risk_factors=[]". *)
Definition with_defaults (kwargs : Kwargs) : Kwargs :=
  {| kw_earned_value := fill (kw_earned_value kwargs) 0;
     kw_planned_value := fill (kw_planned_value kwargs) 100;
     kw_actual_cost := fill (kw_actual_cost kwargs) 0;
     kw_schedule_variance := fill (kw_schedule_variance kwargs) 0;
     kw_cost_variance := fill (kw_cost_variance kwargs) 0;
     kw_completion_percentage := fill (kw_completion_percentage kwargs) 0;
     kw_team_utilization := fill (kw_team_utilization kwargs) 0;
     kw_risk_factors := fill (kw_risk_factors kwargs) [] |}.

(** The per-project pipeline run over the projects one after the other, in
    input order: the records in that order and the state at the end. *)
Fixpoint run_pipeline (clock : nat -> Z) (projects : list Project) (st : State)
    : list ProjectMetrics * State :=
  match projects with
  | [] => ([], st)
  | proj :: rest =>
      let '(m, st1) :=
        calculate_metrics clock (proj_id proj) (get (proj_data proj) no_kwargs) st in
      let '(ms, st2) := run_pipeline clock rest st1 in
      (m :: ms, st2)
  end.

(** Whether a record's health status is Red. *)
Definition is_red (m : ProjectMetrics) : bool := String.eqb (health_status m) "Red".

End Spec.

(** ** Sample data

    The project of the module's [__main__] block, and a small portfolio. *)

Module Sample.

(** A clock that advances by one at every reading. *)
Definition clock (n : nat) : Z := Z.of_nat n.

Definition proj_001 : Kwargs :=
  {| kw_earned_value := Some 750;
     kw_planned_value := Some 800;
     kw_actual_cost := Some 120000;
     kw_schedule_variance := Some (- (50 # 1));
     kw_cost_variance := Some (- (5000 # 1));
     kw_completion_percentage := Some (9375 # 100);
     kw_team_utilization := Some (85 # 100);
     kw_risk_factors := Some [25; 30; 20] |}.

(** A project on schedule and on budget, with no cost booked yet. *)
Definition proj_002 : Kwargs :=
  {| kw_earned_value := Some 100;
     kw_planned_value := None;
     kw_actual_cost := None;
     kw_schedule_variance := None;
     kw_cost_variance := None;
     kw_completion_percentage := None;
     kw_team_utilization := Some (1 # 2);
     kw_risk_factors := None |}.

Definition portfolio : list Project :=
  [ {| proj_id := "PROJ-001"; proj_data := Some proj_001 |};
    {| proj_id := "PROJ-002"; proj_data := Some proj_002 |};
    {| proj_id := "PROJ-003"; proj_data := None |} ].

End Sample.

(** ** The cache invariant and the record of one call *)

Module Inv.

(** The record [calculate_metrics] builds for an id and a field bag when the
    clock reads [t]: the method run on a fresh engine. *)
Definition metrics_at (t : Z) (pid : string) (kwargs : Kwargs) : ProjectMetrics :=
  fst (calculate_metrics (fun _ => t) pid kwargs init).

(** What every record stored under key [key] satisfies. *)
Definition record_ok (key : string) (m : ProjectMetrics) : Prop :=
  project_id m = key
  /\ risk_score m <= 100
  /\ (health_status m = "Green"%string \/ health_status m = "Yellow"%string
      \/ health_status m = "Red"%string)
  /\ health_status m
     = fst (calculate_project_health (schedule_performance_index m)
              (cost_performance_index m) (risk_score m)).

Definition cache_ok (st : State) : Prop :=
  forall (key : string) (m : ProjectMetrics),
    metrics_cache st !! key = Some m -> record_ok key m.

(** The keys of a portfolio summary. *)
Definition summary_keys : gset string :=
  {[ "total_projects"; "avg_health_score"; "at_risk_count";
     "avg_budget_utilization"; "avg_schedule_health" ]}%string.

(** The field bag of a portfolio entry: [proj.get('data', {})]. *)
Definition data_of (proj : Project) : Kwargs := get (proj_data proj) no_kwargs.

End Inv.

(** ** The value-level functions over binary64

    The four formulas again, with every number a binary64 float and every
    arithmetic operation the IEEE 754 operation Python performs, in the order
    the source performs it.  Python [int] literals (0, 40, 100, ...) are the
    floats of the same value: all of them are small and exact.  The
    arguments are floats, as the annotations of the source say. *)

#[local] Set Warnings "-inexact-float".

Module Float64.

Local Open Scope float_scope.

(** The exceptions the modelled code can raise. *)
Inductive exception := OverflowError | ValueError.

(** A returned value or a raised exception. *)
Inductive result (A : Type) :=
  | Ok (a : A)
  | Raise (e : exception).

Arguments Ok {A} a.
Arguments Raise {A} e.

(** [2 ** e] as a fraction. *)
Definition pow2 (e : Z) : Q :=
  match e with
  | Z0 => 1%Q
  | Zpos p => inject_Z (Z.pow_pos 2 p)
  | Zneg p => (1 # Pos.pow 2 p)%Q
  end.

(** The value [m * 2 ** e] of a finite float without its sign. *)
Definition magnitude (m : positive) (e : Z) : Q := (inject_Z (Zpos m) * pow2 e)%Q.

(** The exact value of a finite float, in lowest terms; [None] for an
    infinity or a NaN. *)
Definition exact (x : float) : option Q :=
  match Prim2SF x with
  | S754_zero _ => Some 0%Q
  | S754_finite s m e =>
      Some (Qred (if s then (- magnitude m e)%Q else magnitude m e))
  | S754_infinity _ | S754_nan => None
  end.

(** The float nearest to [k / d], ties to even, with sign [s] (also on a
    zero): the correctly rounded quotient of two integers. *)
Definition nearest (s : bool) (k : Z) (d : positive) : float :=
  match k with
  | Zpos p => SF2Prim (SFdiv prec emax (S754_finite s p 0) (S754_finite false d 0))
  | _ => SF2Prim (S754_zero s)
  end.

(** [round(x, ndigits)] on a [float], for [ndigits >= 0]: an infinity, a NaN
    and a zero round to themselves; a finite [x] to the float nearest to the
    decimal that its exact value rounds to, ties to even, at [ndigits]
    places. *)
Definition round (x : float) (ndigits : nat) : float :=
  match Prim2SF x with
  | S754_finite s m e =>
      let scale := (10 ^ Z.of_nat ndigits)%Z in
      nearest s (Py.round_half_even (magnitude m e * inject_Z scale)) (Z.to_pos scale)
  | _ => x
  end.

(** [int(x)] on a [float]: truncation towards zero; an infinity raises
    [OverflowError], a NaN [ValueError]. *)
Definition int (x : float) : result Z :=
  match Prim2SF x with
  | S754_zero _ => Ok 0%Z
  | S754_finite s m e => Ok (Py.int (if s then (- magnitude m e)%Q else magnitude m e))
  | S754_infinity _ => Raise OverflowError
  | S754_nan => Raise ValueError
  end.

(** [min(a, b)]: the first argument unless the second is strictly smaller
    (so also when the second is a NaN). *)
Definition min (a b : float) : float := if b <? a then b else a.

(** [max(a, b)]: the first argument unless the second is strictly larger. *)
Definition max (a b : float) : float := if a <? b then b else a.

Definition SCHEDULE_THRESHOLD_YELLOW : float := 0.95.
Definition SCHEDULE_THRESHOLD_RED : float := 0.85.
Definition COST_THRESHOLD_YELLOW : float := 0.90.
Definition COST_THRESHOLD_RED : float := 0.75.

(** [calculate_schedule_performance_index]. *)
Definition calculate_schedule_performance_index (earned_value planned_value : float)
    : float :=
  if planned_value =? 0 then 0
  else
    let spi := earned_value / planned_value in
    round spi 3.

(** [calculate_cost_performance_index]. *)
Definition calculate_cost_performance_index (earned_value actual_cost : float)
    : float :=
  if actual_cost =? 0 then 0
  else
    let cpi := earned_value / actual_cost in
    round cpi 3.

(** [calculate_project_health]; [x >= y] is [y <=? x]. *)
Definition calculate_project_health (spi cpi risk_score : float)
    : result (string * Z) :=
  let score := 0 in
  let score :=
    if 1 <=? spi then score + 40
    else if SCHEDULE_THRESHOLD_YELLOW <=? spi then score + 25
    else if SCHEDULE_THRESHOLD_RED <=? spi then score + 10
    else score in
  let score :=
    if 1 <=? cpi then score + 40
    else if COST_THRESHOLD_YELLOW <=? cpi then score + 25
    else if COST_THRESHOLD_RED <=? cpi then score + 10
    else score in
  let risk_adjustment := max 0 (20 * (1 - risk_score / 100)) in
  let score := score + risk_adjustment in
  let status :=
    if 75 <=? score then "Green"%string
    else if 50 <=? score then "Yellow"%string
    else "Red"%string in
  match int score with
  | Ok percentage => Ok (status, percentage)
  | Raise e => Raise e
  end.

Section Numpy.

(** [np.mean] of a list of floats, and [round(x, ndigits)] on the
    [np.float64] that arithmetic with its result produces: functions of the
    numpy library, taken as they are. *)
Variable np_mean : list float -> float.
Variable np_round : float -> nat -> float.

(** [calculate_risk_score].  Without risk factors the score is a Python
    [float] and [round] is the builtin; with risk factors it is an
    [np.float64] and [round] is numpy's.  [min(100, x)] is the integer 100,
    which rounds to itself, unless [x < 100]. *)
Definition calculate_risk_score (schedule_variance cost_variance : float)
    (risk_factors : list float) : float :=
  let base_score := 0 in
  let schedule_risk := min 100 (abs schedule_variance * 10) in
  let base_score := base_score + schedule_risk * 0.3 in
  let cost_risk := min 100 (abs cost_variance * 10) in
  let base_score := base_score + cost_risk * 0.3 in
  match risk_factors with
  | [] =>
      if base_score <? 100 then round base_score 1 else 100
  | _ :: _ =>
      let avg_factors := np_mean risk_factors in
      let base_score := base_score + avg_factors * 0.4 in
      if base_score <? 100 then np_round base_score 1 else 100
  end.

End Numpy.

(** A float whose sign bit is clear (a NaN counts): not negative and not the
    negative zero. *)
Definition unsigned (x : spec_float) : Prop :=
  match x with
  | S754_zero s | S754_infinity s | S754_finite s _ _ => s = false
  | S754_nan => True
  end.

(** The formulas as the specification words them, on binary64. *)
Module Spec.

Definition tier (t1 t2 t3 x : float) : float :=
  if t1 <=? x then 40
  else if t2 <=? x then 25
  else if t3 <=? x then 10
  else 0.

Definition schedule_component (spi : float) : float := tier 1 0.95 0.85 spi.

Definition cost_component (cpi : float) : float := tier 1 0.90 0.75 cpi.

Definition risk_adjustment (risk_score : float) : float :=
  max 0 (20 * (1 - risk_score / 100)).

Definition health_score (spi cpi risk_score : float) : float :=
  schedule_component spi + cost_component cpi + risk_adjustment risk_score.

(** "min(100, |variance| * 10) * 0.3". *)
Definition variance_component (variance : float) : float :=
  min 100 (abs variance * 10) * 0.3.

End Spec.

End Float64.

(** numpy's rounding of a float64 to [decimals >= 0] places: multiply by
    [10 ** decimals], round to the nearest integer (ties to even), divide. *)
Module Numpy.

Local Open Scope float_scope.

(** [np.rint]. *)
Definition rint (x : float) : float :=
  match Prim2SF x with
  | S754_finite s m e =>
      if (0 <=? e)%Z then x
      else Float64.nearest s (Py.round_half_even (Float64.magnitude m e)) 1
  | _ => x
  end.

Definition round (x : float) (decimals : nat) : float :=
  let scale := Float64.nearest false (10 ^ Z.of_nat decimals) 1 in
  rint (x * scale) / scale.

End Numpy.

(** * Properties *)

Example spi_sample : calculate_schedule_performance_index 750 800 = 938 # 1000.
Proof. reflexivity. Qed.

Example round_tie_even : Py.round (25 # 100) 1 = 2 # 10.
Proof. reflexivity. Qed.

Example round_negative : Py.round (- (26 # 100)) 1 = (-3) # 10.
Proof. reflexivity. Qed.

Example int_truncates : Py.int (- (7 # 2)) = (-3)%Z /\ Py.int (7 # 2) = 3%Z.
Proof. split; reflexivity. Qed.

(** ** Facts about the numeric primitives *)

Section Primitives.

Lemma geb_true (a b : Q) : Py.geb a b = true <-> b <= a.
Proof. unfold Py.geb. apply Qle_bool_iff. Qed.

Lemma geb_false (a b : Q) : Py.geb a b = false <-> a < b.
Proof.
  unfold Py.geb. split; intros H.
  - apply Qnot_le_lt. intros Hle. apply Qle_bool_iff in Hle. congruence.
  - destruct (Qle_bool b a) eqn:E; trivial.
    apply Qle_bool_iff in E. exfalso. exact (Qlt_not_le _ _ H E).
Qed.

Lemma gtb_true (a b : Q) : Py.gtb a b = true <-> b < a.
Proof.
  unfold Py.gtb. rewrite negb_true_iff. apply (geb_false b a).
Qed.

Lemma gtb_false (a b : Q) : Py.gtb a b = false <-> a <= b.
Proof.
  unfold Py.gtb. rewrite negb_false_iff. apply (geb_true b a).
Qed.

Lemma eqb_true (a b : Q) : Py.eqb a b = true <-> a == b.
Proof. unfold Py.eqb. apply Qeq_bool_iff. Qed.

Lemma eqb_false (a b : Q) : Py.eqb a b = false <-> ~ a == b.
Proof.
  unfold Py.eqb. split; intros H.
  - intros E. apply Qeq_bool_iff in E. congruence.
  - destruct (Qeq_bool a b) eqn:E; trivial.
    apply Qeq_bool_iff in E. contradiction.
Qed.

(** The two-argument [min] and [max] of Python agree with the library's. *)
Lemma min_Qmin (a b : Q) : Py.min a b == Qmin a b.
Proof.
  unfold Py.min. destruct (Py.gtb a b) eqn:E.
  - apply gtb_true in E. symmetry. apply Q.min_r. apply Qlt_le_weak, E.
  - apply gtb_false in E. symmetry. apply Q.min_l, E.
Qed.

Lemma max_Qmax (a b : Q) : Py.max a b == Qmax a b.
Proof.
  unfold Py.max. destruct (Py.gtb b a) eqn:E.
  - apply gtb_true in E. symmetry. apply Q.max_r. apply Qlt_le_weak, E.
  - apply gtb_false in E. symmetry. apply Q.max_l, E.
Qed.

End Primitives.

Section Rounding.

(** [int] is the floor of a non-negative number and the ceiling of a negative
    one. *)
Lemma int_floor_ceiling (x : Q) :
  Py.int x = if (Qnum x <? 0)%Z then Qceiling x else Qfloor x.
Proof.
  destruct x as [a b]. unfold Py.int, Qceiling, Qfloor. cbn [Qnum Qden Qopp].
  destruct (Z.ltb_spec a 0) as [Hneg | Hpos].
  - rewrite <- (Z.opp_involutive a) at 1.
    rewrite Z.quot_opp_l by discriminate.
    rewrite Z.quot_div_nonneg by lia. reflexivity.
  - apply Z.quot_div_nonneg; lia.
Qed.

Lemma Qnum_sign_comp (x y : Q) : x == y -> (Qnum x <? 0)%Z = (Qnum y <? 0)%Z.
Proof.
  unfold Qeq. intros E.
  destruct (Z.ltb_spec (Qnum x) 0), (Z.ltb_spec (Qnum y) 0); trivial; nia.
Qed.

(** [int] does not depend on the representation of its argument. *)
Lemma int_comp (x y : Q) : x == y -> Py.int x = Py.int y.
Proof.
  intros E. rewrite !int_floor_ceiling, (Qnum_sign_comp x y E).
  destruct (Qnum y <? 0)%Z.
  - apply Qceiling_comp, E.
  - apply Qfloor_comp, E.
Qed.

Lemma round_half_even_comp (x y : Q) :
  x == y -> Py.round_half_even x = Py.round_half_even y.
Proof.
  intros E. unfold Py.round_half_even.
  rewrite (Qfloor_comp x y E).
  assert (Hc : Qcompare (x - inject_Z (Qfloor y)) (1 # 2)
               = Qcompare (y - inject_Z (Qfloor y)) (1 # 2)).
  { apply Qcompare_comp; [ rewrite E | ]; reflexivity. }
  rewrite Hc. reflexivity.
Qed.

(** Equal arguments round to the same fraction, digit for digit. *)
Lemma round_comp (x y : Q) (nd : nat) : x == y -> Py.round x nd = Py.round y nd.
Proof.
  intros E. unfold Py.round.
  set (scale := inject_Z (10 ^ Z.of_nat nd)).
  rewrite (round_half_even_comp (x * scale) (y * scale)); [ reflexivity | ].
  rewrite E. reflexivity.
Qed.

(** The rounded integer is the floor or its successor. *)
Lemma round_half_even_cases (x : Q) :
  Py.round_half_even x = Qfloor x
  \/ (Py.round_half_even x = (Qfloor x + 1)%Z /\ inject_Z (Qfloor x) < x).
Proof.
  unfold Py.round_half_even.
  destruct (Qcompare (x - inject_Z (Qfloor x)) (1 # 2)) eqn:C.
  - destruct (Z.even (Qfloor x)); [ now left | right; split; trivial ].
    apply Qeq_alt in C. lra.
  - now left.
  - right; split; trivial.
    apply Qgt_alt in C. lra.
Qed.

End Rounding.

(** ** Health classification *)

Section Health.

(** One tiered [if]/[elif] block of the code adds the tier's points. *)
Lemma tier_code (t1 t2 t3 x s : Q) :
  (if Py.geb x t1 then s + 40
   else if Py.geb x t2 then s + 25
   else if Py.geb x t3 then s + 10
   else s) == s + Spec.tier t1 t2 t3 x.
Proof.
  unfold Spec.tier.
  destruct (Py.geb x t1) eqn:E1; [ apply geb_true in E1 | apply geb_false in E1 ];
  destruct (Qlt_le_dec x t1) as [L1 | L1]; try lra.
  destruct (Py.geb x t2) eqn:E2; [ apply geb_true in E2 | apply geb_false in E2 ];
  destruct (Qlt_le_dec x t2) as [L2 | L2]; try lra.
  destruct (Py.geb x t3) eqn:E3; [ apply geb_true in E3 | apply geb_false in E3 ];
  destruct (Qlt_le_dec x t3) as [L3 | L3]; lra.
Qed.

(** The status and percentage are read off a score equal to the specified
    sum. *)
Lemma calculate_project_health_score (spi cpi risk : Q) :
  exists score : Q,
    score == Spec.health_score spi cpi risk
    /\ calculate_project_health spi cpi risk
       = (if Py.geb score 75 then "Green"%string
          else if Py.geb score 50 then "Yellow"%string
          else "Red"%string,
          Py.int score).
Proof.
  unfold calculate_project_health.
  eexists. split; [ | reflexivity ].
  unfold Spec.health_score, Spec.schedule_component, Spec.cost_component,
    Spec.risk_adjustment.
  unfold SCHEDULE_THRESHOLD_YELLOW, SCHEDULE_THRESHOLD_RED,
    COST_THRESHOLD_YELLOW, COST_THRESHOLD_RED.
  rewrite max_Qmax. rewrite tier_code. rewrite tier_code. ring.
Qed.

(** The tiers of the specification, spelled out. *)
Lemma tier_values (t1 t2 t3 x : Q) :
  (t1 <= x -> Spec.tier t1 t2 t3 x = 40)
  /\ (x < t1 -> t2 <= x -> Spec.tier t1 t2 t3 x = 25)
  /\ (x < t1 -> x < t2 -> t3 <= x -> Spec.tier t1 t2 t3 x = 10)
  /\ (x < t1 -> x < t2 -> x < t3 -> Spec.tier t1 t2 t3 x = 0).
Proof.
  unfold Spec.tier. split; [ | split; [ | split ] ]; intros;
    destruct (Qlt_le_dec x t1); try lra;
    destruct (Qlt_le_dec x t2); try lra;
    destruct (Qlt_le_dec x t3); try lra; reflexivity.
Qed.

End Health.

(** ** Risk scoring *)

Section Risk.

(** The capped and weighted variance term of the code. *)
Lemma variance_term (v : Q) :
  Py.min 100 (Py.abs v * 10) * (3 # 10) == Spec.variance_component v.
Proof.
  unfold Spec.variance_component, Py.abs. rewrite min_Qmin. reflexivity.
Qed.

(** The value the code rounds is the specified total. *)
Lemma risk_total_code (sv cv : Q) (rf : list Q) (base : Q) :
  base == Spec.variance_component sv + Spec.variance_component cv
          + Spec.factor_component rf ->
  Py.min 100 base == Spec.risk_total sv cv rf.
Proof.
  intros Hb. unfold Spec.risk_total. rewrite min_Qmin.
  apply Q.min_compat; [ reflexivity | exact Hb ].
Qed.

(** The code rounds the specified total. *)
Lemma calculate_risk_score_total (sv cv : Q) (rf : list Q) :
  calculate_risk_score sv cv rf = Py.round (Spec.risk_total sv cv rf) 1.
Proof.
  unfold calculate_risk_score. apply round_comp, risk_total_code.
  pose proof (variance_term sv) as Hs. pose proof (variance_term cv) as Hc.
  destruct rf as [ | r rf ]; cbn [Spec.factor_component]; lra.
Qed.

End Risk.

(** ** Bounds of the risk score *)

Section RiskBounds.

Lemma round_half_even_le (x : Q) (n : Z) :
  x <= inject_Z n -> (Py.round_half_even x <= n)%Z.
Proof.
  intros Hx.
  assert (Hf : (Qfloor x <= n)%Z).
  { rewrite <- (Qfloor_Z n). apply Qfloor_resp_le, Hx. }
  destruct (round_half_even_cases x) as [-> | [-> Hlt]]; [ assumption | ].
  assert (Hn : inject_Z (Qfloor x) < inject_Z n) by lra.
  rewrite <- Zlt_Qlt in Hn. lia.
Qed.

Lemma round_half_even_ge (x : Q) (n : Z) :
  inject_Z n <= x -> (n <= Py.round_half_even x)%Z.
Proof.
  intros Hx.
  assert (Hf : (n <= Qfloor x)%Z).
  { rewrite <- (Qfloor_Z n). apply Qfloor_resp_le, Hx. }
  destruct (round_half_even_cases x) as [-> | [-> _]]; lia.
Qed.

Lemma scale_pos (nd : nat) : 0 < inject_Z (10 ^ Z.of_nat nd).
Proof.
  replace 0 with (inject_Z 0) by reflexivity. rewrite <- Zlt_Qlt.
  apply Z.pow_pos_nonneg; lia.
Qed.

(** Rounding never crosses an integer. *)
Lemma round_le (x : Q) (n : Z) (nd : nat) :
  x <= inject_Z n -> Py.round x nd <= inject_Z n.
Proof.
  intros Hx. unfold Py.round.
  pose proof (scale_pos nd) as Hs. set (sc := (10 ^ Z.of_nat nd)%Z) in *.
  apply Qle_shift_div_r; [ assumption | ].
  rewrite <- inject_Z_mult, <- Zle_Qle.
  apply round_half_even_le. rewrite inject_Z_mult.
  apply Qmult_le_compat_r; [ assumption | apply Qlt_le_weak, Hs ].
Qed.

Lemma round_ge (x : Q) (n : Z) (nd : nat) :
  inject_Z n <= x -> inject_Z n <= Py.round x nd.
Proof.
  intros Hx. unfold Py.round.
  pose proof (scale_pos nd) as Hs. set (sc := (10 ^ Z.of_nat nd)%Z) in *.
  apply Qle_shift_div_l; [ assumption | ].
  rewrite <- inject_Z_mult, <- Zle_Qle.
  apply round_half_even_ge. rewrite inject_Z_mult.
  apply Qmult_le_compat_r; [ assumption | apply Qlt_le_weak, Hs ].
Qed.

Lemma fold_plus_ge (l : list Q) (a : Q) :
  Forall (fun r => 0 <= r) l -> a <= fold_left Qplus l a.
Proof.
  intros H. revert a. induction H as [ | r l Hr _ IH ]; intros a; cbn.
  - lra.
  - specialize (IH (a + r)). lra.
Qed.

(** The mean of non-negative numbers is non-negative. *)
Lemma mean_nonneg (r : Q) (l : list Q) :
  Forall (fun r => 0 <= r) (r :: l) -> 0 <= Py.mean (r :: l).
Proof.
  intros H. unfold Py.mean, Py.sum.
  apply Qle_shift_div_l.
  - replace 0 with (inject_Z 0) by reflexivity. rewrite <- Zlt_Qlt. cbn [length]. lia.
  - pose proof (fold_plus_ge (r :: l) 0 H). lra.
Qed.

Lemma variance_component_nonneg (v : Q) : 0 <= Spec.variance_component v.
Proof.
  unfold Spec.variance_component.
  pose proof (Qabs_nonneg v).
  destruct (Q.min_spec 100 (Qabs v * 10)) as [[_ E] | [_ E]]; rewrite E; lra.
Qed.

(** The upper clamp holds on every input. *)
Lemma calculate_risk_score_le_100 (sv cv : Q) (rf : list Q) :
  calculate_risk_score sv cv rf <= 100.
Proof.
  rewrite calculate_risk_score_total. apply (round_le _ 100).
  unfold Spec.risk_total. apply Q.le_min_l.
Qed.

(** With risk factors that are not negative the score is in [[0, 100]]. *)
Lemma calculate_risk_score_range (sv cv : Q) (rf : list Q) :
  Forall (fun r => 0 <= r) rf ->
  0 <= calculate_risk_score sv cv rf /\ calculate_risk_score sv cv rf <= 100.
Proof.
  intros H. split; [ | apply calculate_risk_score_le_100 ].
  rewrite calculate_risk_score_total. apply (round_ge _ 0).
  unfold Spec.risk_total.
  pose proof (variance_component_nonneg sv). pose proof (variance_component_nonneg cv).
  assert (0 <= Spec.factor_component rf).
  { destruct rf as [ | r l ]; cbn [Spec.factor_component]; [ lra | ].
    pose proof (mean_nonneg r l H). lra. }
  change (inject_Z 0) with 0. apply Q.min_glb; lra.
Qed.

(** C3. The score is not always in [[0, 100]]: the code clamps at 100 only,
    and a negative risk factor takes the score below 0.  Here
    [calculate_risk_score(0, 0, [-1000])] is [-400.0]. *)
Theorem calculate_risk_score_negative :
  calculate_risk_score 0 0 [- (1000 # 1)] = (-4000) # 10
  /\ calculate_risk_score 0 0 [- (1000 # 1)] < 0.
Proof. split; reflexivity. Qed.

End RiskBounds.

(** ** Per-project orchestration and the cache *)

Section Orchestration.

Variable clock : nat -> Z.

(** The record built by [calculate_metrics], field by field. *)
Lemma calculate_metrics_fields (pid : string) (kw : Kwargs) (st : State) :
  let ev := get (kw_earned_value kw) 0 in
  let pv := get (kw_planned_value kw) 100 in
  let ac := get (kw_actual_cost kw) 0 in
  let sv := get (kw_schedule_variance kw) 0 in
  let cv := get (kw_cost_variance kw) 0 in
  let spi := calculate_schedule_performance_index ev pv in
  let cpi := if Py.gtb ac 0 then calculate_cost_performance_index ev ac else 1 in
  let risk := calculate_risk_score sv cv (get (kw_risk_factors kw) []) in
  let m :=
    {| project_id := pid;
       schedule_performance_index := spi;
       cost_performance_index := cpi;
       budget_variance := cv;
       schedule_variance := sv;
       risk_score := risk;
       team_utilization := get (kw_team_utilization kw) 0;
       completion_percentage := get (kw_completion_percentage kw) 0;
       health_status := fst (calculate_project_health spi cpi risk);
       calculated_at := clock (ticks st) |} in
  calculate_metrics clock pid kw st
  = (m, {| metrics_cache := <[pid := m]> (metrics_cache st);
           ticks := S (ticks st) |}).
Proof.
  cbv zeta. unfold calculate_metrics.
  destruct (calculate_project_health _ _ _) as [status pct]. reflexivity.
Qed.

(** The returned record is the one stored under the project id. *)
Lemma calculate_metrics_cached (pid : string) (kw : Kwargs) (st : State) :
  metrics_cache (snd (calculate_metrics clock pid kw st)) !! pid
  = Some (fst (calculate_metrics clock pid kw st)).
Proof.
  rewrite calculate_metrics_fields. cbn [fst snd metrics_cache].
  apply lookup_insert_eq.
Qed.

(** C6. An absent field is replaced by its default and is never an error:
    the call returns the same record and leaves the same state as the call
    with the defaults supplied explicitly. *)
Theorem calculate_metrics_defaults (pid : string) (kw : Kwargs) (st : State) :
  calculate_metrics clock pid kw st
  = calculate_metrics clock pid (Spec.with_defaults kw) st.
Proof.
  destruct kw as [ev pv ac sv cv comp util rf].
  destruct ev, pv, ac, sv, cv, comp, util, rf; reflexivity.
Qed.

(** C10. The [budget_variance] of the returned record is the
    [cost_variance] input (0 when absent) and its [schedule_variance] is the
    [schedule_variance] input (0 when absent); that record is the one
    cached. *)
Theorem calculate_metrics_variances (pid : string) (kw : Kwargs) (st : State) :
  let m := fst (calculate_metrics clock pid kw st) in
  let st' := snd (calculate_metrics clock pid kw st) in
  budget_variance m = get (kw_cost_variance kw) 0
  /\ schedule_variance m = get (kw_schedule_variance kw) 0
  /\ metrics_cache st' !! pid = Some m.
Proof.
  cbv zeta. split; [ | split ]; [ | | apply calculate_metrics_cached ];
    rewrite calculate_metrics_fields; reflexivity.
Qed.

(** C9. Two calls with the same id and the same fields return records that
    agree on every field but [calculated_at]; afterwards the cache is the
    initial one with the id bound to the second record, and
    [get_project_metrics] returns that record. *)
Theorem calculate_metrics_twice (pid : string) (kw : Kwargs) (st : State) :
  let r1 := calculate_metrics clock pid kw st in
  let r2 := calculate_metrics clock pid kw (snd r1) in
  let m1 := fst r1 in
  let m2 := fst r2 in
  (project_id m1 = project_id m2
   /\ schedule_performance_index m1 = schedule_performance_index m2
   /\ cost_performance_index m1 = cost_performance_index m2
   /\ budget_variance m1 = budget_variance m2
   /\ schedule_variance m1 = schedule_variance m2
   /\ risk_score m1 = risk_score m2
   /\ team_utilization m1 = team_utilization m2
   /\ completion_percentage m1 = completion_percentage m2
   /\ health_status m1 = health_status m2)
  /\ metrics_cache (snd r2) = <[pid := m2]> (metrics_cache st)
  /\ get_project_metrics pid (snd r2) = Some m2.
Proof.
  cbv zeta. unfold get_project_metrics.
  split; [ | split ]; [ | | apply calculate_metrics_cached ].
  - rewrite !calculate_metrics_fields. cbn. tauto.
  - rewrite (calculate_metrics_fields pid kw (snd _)).
    cbn [fst snd metrics_cache].
    rewrite calculate_metrics_fields. cbn [snd metrics_cache].
    apply insert_insert_eq.
Qed.

(** The two records of such a pair carry the times of two successive
    clock readings. *)
Lemma calculate_metrics_twice_times (pid : string) (kw : Kwargs) (st : State) :
  let r1 := calculate_metrics clock pid kw st in
  let r2 := calculate_metrics clock pid kw (snd r1) in
  calculated_at (fst r1) = clock (ticks st)
  /\ calculated_at (fst r2) = clock (S (ticks st)).
Proof.
  cbv zeta. rewrite (calculate_metrics_fields pid kw (snd _)).
  rewrite calculate_metrics_fields. split; reflexivity.
Qed.

End Orchestration.

(** ** Portfolio aggregation *)

Section Portfolio.

Variable clock : nat -> Z.

(** Counting up by one stays on the integers, digit for digit. *)
Lemma inject_Z_succ (k : nat) :
  inject_Z (Z.of_nat k) + 1 = inject_Z (Z.of_nat (S k)).
Proof.
  unfold inject_Z, Qplus. cbn [Qnum Qden].
  rewrite Nat2Z.inj_succ. f_equal. lia.
Qed.

(** One iteration of the loop, in terms of the record it computes. *)
Lemma portfolio_step_eq (loc : Loop) (st : State) (proj : Project) :
  let r := calculate_metrics clock (proj_id proj) (get (proj_data proj) no_kwargs) st in
  let m := fst r in
  portfolio_step clock (loc, st) proj
  = ({| portfolio_metrics :=
          if Spec.is_red m
          then alter (fun n => n + 1) "at_risk_count"%string (portfolio_metrics loc)
          else portfolio_metrics loc;
        health_scores := health_scores loc ++ [risk_score m];
        utilizations := utilizations loc ++ [team_utilization m];
        schedule_indices := schedule_indices loc ++ [schedule_performance_index m] |},
     snd r).
Proof.
  cbv zeta. unfold portfolio_step, Spec.is_red.
  destruct (calculate_metrics clock _ _ st) as [m st1]. cbn [fst snd].
  destruct (String.eqb (health_status m) "Red"); reflexivity.
Qed.

(** The loop against the sequential run of the pipeline: the three lists
    grow by the collected values in input order, [at_risk_count] grows by the
    number of Red records, the other keys are not touched, and the state is
    the one the sequential run ends in. *)
Lemma portfolio_loop (projects : list Project) :
  forall (loc : Loop) (st : State),
    let r := fold_left (portfolio_step clock) projects (loc, st) in
    let ms := fst (Spec.run_pipeline clock projects st) in
    snd r = snd (Spec.run_pipeline clock projects st)
    /\ health_scores (fst r) = health_scores loc ++ map risk_score ms
    /\ utilizations (fst r) = utilizations loc ++ map team_utilization ms
    /\ schedule_indices (fst r)
       = schedule_indices loc ++ map schedule_performance_index ms
    /\ (forall key : string, key <> "at_risk_count"%string ->
        portfolio_metrics (fst r) !! key = portfolio_metrics loc !! key)
    /\ (forall k : nat,
        portfolio_metrics loc !! "at_risk_count"%string
          = Some (inject_Z (Z.of_nat k)) ->
        portfolio_metrics (fst r) !! "at_risk_count"%string
          = Some (inject_Z (Z.of_nat (k + length (List.filter Spec.is_red ms))))).
Proof.
  induction projects as [ | proj rest IH ]; intros loc st; cbv zeta.
  - cbn. rewrite !app_nil_r.
    do 5 (split; [ reflexivity | ]).
    intros k Hk. rewrite Nat.add_0_r. exact Hk.
  - cbn [fold_left Spec.run_pipeline]. rewrite portfolio_step_eq.
    destruct (calculate_metrics clock (proj_id proj) _ st) as [m st1].
    cbn [fst snd].
    match goal with
    | |- context [fold_left _ rest (?l, st1)] =>
        destruct (IH l st1) as (Hst & Hh & Hu & Hs & Hother & Hred)
    end.
    destruct (Spec.run_pipeline clock rest st1) as [ms st2].
    cbn [fst snd] in *.
    cbn [health_scores utilizations schedule_indices portfolio_metrics] in *.
    split; [ exact Hst | ].
    split; [ rewrite Hh, <- app_assoc; reflexivity | ].
    split; [ rewrite Hu, <- app_assoc; reflexivity | ].
    split; [ rewrite Hs, <- app_assoc; reflexivity | ].
    split.
    + intros key Hkey. rewrite (Hother key Hkey).
      destruct (Spec.is_red m); [ | reflexivity ].
      apply lookup_alter_ne. congruence.
    + intros k Hk. cbn [map List.filter].
      destruct (Spec.is_red m).
      * cbn [length]. rewrite Nat.add_succ_r, <- Nat.add_succ_l.
        apply Hred. rewrite lookup_alter_eq, Hk. cbn.
        rewrite inject_Z_succ. reflexivity.
      * apply Hred, Hk.
Qed.

(** The sequential run returns one record per project. *)
Lemma run_pipeline_length (projects : list Project) (st : State) :
  length (fst (Spec.run_pipeline clock projects st)) = length projects.
Proof.
  revert st. induction projects as [ | proj rest IH ]; intros st;
    cbn [Spec.run_pipeline].
  - reflexivity.
  - destruct (calculate_metrics clock _ _ st) as [m st1].
    specialize (IH st1).
    destruct (Spec.run_pipeline clock rest st1) as [ms st2].
    cbn [fst length] in *. now rewrite IH.
Qed.

Lemma mean_or_zero_nonempty (xs : list Q) :
  xs <> [] -> mean_or_zero xs = Py.mean xs.
Proof. destruct xs; [ congruence | reflexivity ]. Qed.

(** C8. For an empty sequence of projects the result is the empty
    dictionary, and the state (the cache with it) is left as it was. *)
Theorem calculate_portfolio_metrics_empty (st : State) :
  calculate_portfolio_metrics clock [] st = (∅, st).
Proof. reflexivity. Qed.


End Portfolio.


(** ** The scenarios of the specification, evaluated *)

Section Scenarios.

Example scenario_risk :
  calculate_risk_score (- (50 # 1)) (- (5000 # 1)) [25; 30; 20] = 700 # 10.
Proof. reflexivity. Qed.

Example scenario_health_red :
  calculate_project_health (938 # 1000) (6 # 1000) (700 # 10) = ("Red"%string, 16%Z).
Proof. reflexivity. Qed.

Example scenario_health_green :
  calculate_project_health (105 # 100) (102 # 100) 10 = ("Green"%string, 98%Z).
Proof. reflexivity. Qed.

Example scenario_health_boundaries :
  fst (calculate_project_health 1 (90 # 100) 50) = "Green"%string
  /\ fst (calculate_project_health 1 (75 # 100) 100) = "Yellow"%string
  /\ fst (calculate_project_health (95 # 100) (75 # 100) (26 # 1)) = "Red"%string.
Proof. repeat split. Qed.

Example scenario_metrics :
  let m := fst (calculate_metrics Sample.clock "PROJ-001" Sample.proj_001 init) in
  schedule_performance_index m = 938 # 1000
  /\ cost_performance_index m = 6 # 1000
  /\ risk_score m = 700 # 10
  /\ health_status m = "Red"%string.
Proof. repeat split. Qed.

Example scenario_portfolio :
  let summary := fst (calculate_portfolio_metrics Sample.clock Sample.portfolio init) in
  summary !! "at_risk_count"%string = Some 1
  /\ dom summary
     = {[ "total_projects"; "avg_health_score"; "at_risk_count";
          "avg_budget_utilization"; "avg_schedule_health" ]}%string.
Proof. split; vm_compute; reflexivity. Qed.

End Scenarios.

(** * Further properties of the engine *)

(** ** Rounding keeps the order *)

Section RoundingOrder.

(** Rounding to the nearest integer keeps the order. *)
Lemma round_half_even_mono (x y : Q) :
  x <= y -> (Py.round_half_even x <= Py.round_half_even y)%Z.
Proof.
  intros Hxy.
  pose proof (Qfloor_resp_le x y Hxy) as Hf.
  destruct (Z.eq_dec (Qfloor x) (Qfloor y)) as [E | N].
  - unfold Py.round_half_even. rewrite E.
    destruct (Qcompare_spec (x - inject_Z (Qfloor y)) (1 # 2));
      destruct (Qcompare_spec (y - inject_Z (Qfloor y)) (1 # 2));
      destruct (Z.even (Qfloor y)); try lia; lra.
  - assert (Hx : (Py.round_half_even x <= Qfloor x + 1)%Z)
      by (destruct (round_half_even_cases x) as [-> | [-> _]]; lia).
    assert (Hy : (Qfloor y <= Py.round_half_even y)%Z)
      by (destruct (round_half_even_cases y) as [-> | [-> _]]; lia).
    lia.
Qed.

(** [round] keeps the order. *)
Lemma round_mono (x y : Q) (nd : nat) :
  x <= y -> Py.round x nd <= Py.round y nd.
Proof.
  intros Hxy. unfold Py.round.
  pose proof (scale_pos nd) as Hs. set (sc := inject_Z (10 ^ Z.of_nat nd)) in *.
  apply Qmult_le_compat_r.
  - rewrite <- Zle_Qle. apply round_half_even_mono.
    apply Qmult_le_compat_r; [ assumption | apply Qlt_le_weak, Hs ].
  - apply Qlt_le_weak, Qinv_lt_0_compat, Hs.
Qed.

End RoundingOrder.

(** ** Risk score: bounds, symmetry, saturation, order *)

Section RiskMore.

(** The score depends on the variances through their capped terms only. *)
Lemma calculate_risk_score_comp (sv sv' cv cv' : Q) (rf : list Q) :
  Spec.variance_component sv == Spec.variance_component sv' ->
  Spec.variance_component cv == Spec.variance_component cv' ->
  calculate_risk_score sv cv rf = calculate_risk_score sv' cv' rf.
Proof.
  intros Hs Hc. rewrite !calculate_risk_score_total. apply round_comp.
  unfold Spec.risk_total. apply Q.min_compat; [ reflexivity | lra ].
Qed.

Lemma variance_component_mono (v v' : Q) :
  Qabs v <= Qabs v' -> Spec.variance_component v <= Spec.variance_component v'.
Proof.
  intros H. unfold Spec.variance_component.
  assert (Qmin 100 (Qabs v * 10) <= Qmin 100 (Qabs v' * 10))
    by (apply Q.min_le_compat_l; lra).
  lra.
Qed.

Lemma variance_component_capped (v : Q) :
  10 <= Qabs v -> Spec.variance_component v == 30.
Proof.
  intros H. unfold Spec.variance_component.
  rewrite Q.min_l by lra. reflexivity.
Qed.

(** The upper clamp: whatever the variances and the risk factors, the score
    is at most 100. *)
Theorem risk_score_at_most_100 (sv cv : Q) (rf : list Q) :
  calculate_risk_score sv cv rf <= 100.
Proof. apply calculate_risk_score_le_100. Qed.

(** With no negative risk factor the score is in [[0, 100]]. *)
Theorem risk_score_in_range (sv cv : Q) (rf : list Q) :
  Forall (fun r => 0 <= r) rf ->
  0 <= calculate_risk_score sv cv rf <= 100.
Proof. apply calculate_risk_score_range. Qed.

Lemma risk_score_in_range_witness :
  Forall (fun r => 0 <= r) [25; 30; 20]
  /\ 0 <= calculate_risk_score (- (50 # 1)) (- (5000 # 1)) [25; 30; 20] <= 100.
Proof.
  assert (H : Forall (fun r => 0 <= r) [25; 30; 20])
    by (repeat constructor; discriminate).
  split; [ exact H | ].
  apply (risk_score_in_range (- (50 # 1)) (- (5000 # 1)) [25; 30; 20] H).
Defined.

(** Only the magnitude of a variance counts: flipping the sign of either
    variance leaves the score unchanged. *)
Theorem risk_score_sign_insensitive (sv cv : Q) (rf : list Q) :
  calculate_risk_score (- sv) cv rf = calculate_risk_score sv cv rf
  /\ calculate_risk_score sv (- cv) rf = calculate_risk_score sv cv rf.
Proof.
  split; apply calculate_risk_score_comp; try reflexivity;
    unfold Spec.variance_component; rewrite Qabs_opp; reflexivity.
Qed.

(** Saturation: a variance of magnitude 10 or more, in the schedule or in the
    cost position, contributes the same as any other such variance. *)
Theorem risk_score_saturates (v v' other : Q) (rf : list Q) :
  10 <= Qabs v -> 10 <= Qabs v' ->
  calculate_risk_score v other rf = calculate_risk_score v' other rf
  /\ calculate_risk_score other v rf = calculate_risk_score other v' rf.
Proof.
  intros Hv Hv'.
  pose proof (variance_component_capped v Hv).
  pose proof (variance_component_capped v' Hv').
  split; apply calculate_risk_score_comp; try reflexivity; lra.
Qed.

Lemma risk_score_saturates_witness :
  calculate_risk_score (- (50 # 1)) 3 [25] = calculate_risk_score 10 3 [25]
  /\ calculate_risk_score 3 (- (50 # 1)) [25] = calculate_risk_score 3 10 [25].
Proof.
  apply (risk_score_saturates (- (50 # 1)) 10 3 [25]); discriminate.
Defined.

(** Larger variances (in magnitude) never lower the score. *)
Theorem risk_score_monotone (sv sv' cv cv' : Q) (rf : list Q) :
  Qabs sv <= Qabs sv' -> Qabs cv <= Qabs cv' ->
  calculate_risk_score sv cv rf <= calculate_risk_score sv' cv' rf.
Proof.
  intros Hs Hc. rewrite !calculate_risk_score_total. apply round_mono.
  unfold Spec.risk_total. apply Q.min_le_compat_l.
  pose proof (variance_component_mono sv sv' Hs).
  pose proof (variance_component_mono cv cv' Hc). lra.
Qed.

Lemma risk_score_monotone_witness :
  calculate_risk_score 1 (- (2 # 1)) [25] <= calculate_risk_score (- (3 # 1)) 4 [25].
Proof.
  apply (risk_score_monotone 1 (- (3 # 1)) (- (2 # 1)) 4 [25]); discriminate.
Defined.

End RiskMore.

(** ** Index calculators: accuracy and the marks 0 and 1 *)

Section IndicesMore.

(** For a positive planned value, rounding never takes the SPI across 0 or
    across 1: non-negative earned value gives a non-negative SPI, earned
    value at or above plan gives an SPI of at least 1, and earned value at
    or below plan an SPI of at most 1. *)
Theorem schedule_performance_index_marks (ev pv : Q) :
  0 < pv ->
  (0 <= ev -> 0 <= calculate_schedule_performance_index ev pv)
  /\ (pv <= ev -> 1 <= calculate_schedule_performance_index ev pv)
  /\ (ev <= pv -> calculate_schedule_performance_index ev pv <= 1).
Proof.
  intros Hpv.
  assert (Hne : ~ pv == 0) by lra. apply eqb_false in Hne.
  unfold calculate_schedule_performance_index. rewrite Hne.
  split; [ | split ]; intros H.
  - apply (round_ge _ 0). change (inject_Z 0) with 0.
    apply Qle_shift_div_l; [ assumption | lra ].
  - apply (round_ge _ 1). change (inject_Z 1) with 1.
    apply Qle_shift_div_l; [ assumption | lra ].
  - apply (round_le _ 1). change (inject_Z 1) with 1.
    apply Qle_shift_div_r; [ assumption | lra ].
Qed.

Lemma schedule_performance_index_marks_witness :
  0 <= calculate_schedule_performance_index 750 800
  /\ 1 <= calculate_schedule_performance_index 800 800
  /\ calculate_schedule_performance_index 750 800 <= 1.
Proof.
  split; [ | split ].
  - apply (schedule_performance_index_marks 750 800); reflexivity || discriminate.
  - apply (schedule_performance_index_marks 800 800); reflexivity || discriminate.
  - apply (schedule_performance_index_marks 750 800); reflexivity || discriminate.
Defined.

End IndicesMore.

(** ** Health: range, agreement of status and percentage, order *)

Section HealthMore.

Lemma tier_range (t1 t2 t3 x : Q) :
  0 <= Spec.tier t1 t2 t3 x <= 40.
Proof.
  unfold Spec.tier.
  destruct (Qlt_le_dec x t1), (Qlt_le_dec x t2), (Qlt_le_dec x t3);
    split; discriminate.
Qed.

Lemma tier_mono (t1 t2 t3 x y : Q) :
  t3 <= t2 -> t2 <= t1 -> x <= y ->
  Spec.tier t1 t2 t3 x <= Spec.tier t1 t2 t3 y.
Proof.
  intros H32 H21 Hxy. unfold Spec.tier.
  destruct (Qlt_le_dec x t1), (Qlt_le_dec x t2), (Qlt_le_dec x t3),
    (Qlt_le_dec y t1), (Qlt_le_dec y t2), (Qlt_le_dec y t3);
    try discriminate; lra.
Qed.

Lemma risk_adjustment_range (risk : Q) :
  0 <= Spec.risk_adjustment risk
  /\ (0 <= risk -> Spec.risk_adjustment risk <= 20).
Proof.
  unfold Spec.risk_adjustment. split.
  - apply Q.le_max_l.
  - intros H.
    assert (E : risk / 100 == risk * (1 # 100)) by reflexivity.
    apply Q.max_lub; lra.
Qed.

Lemma risk_adjustment_anti (risk risk' : Q) :
  risk' <= risk -> Spec.risk_adjustment risk <= Spec.risk_adjustment risk'.
Proof.
  intros H. unfold Spec.risk_adjustment. apply Q.max_le_compat_l.
  assert (E : risk / 100 == risk * (1 # 100)) by reflexivity.
  assert (E' : risk' / 100 == risk' * (1 # 100)) by reflexivity.
  lra.
Qed.

(** [int] of a non-negative number is its floor. *)
Lemma int_nonneg (s : Q) : 0 <= s -> Py.int s = Qfloor s.
Proof.
  intros H. rewrite int_floor_ceiling.
  destruct (Z.ltb_spec (Qnum s) 0) as [Hneg | _]; [ | reflexivity ].
  unfold Qle in H. cbn in H. lia.
Qed.

Lemma floor_ge_iff (k : Z) (s : Q) : (k <= Qfloor s)%Z <-> inject_Z k <= s.
Proof.
  split; intros H.
  - apply Qle_trans with (inject_Z (Qfloor s)); [ | apply Qfloor_le ].
    rewrite <- Zle_Qle. exact H.
  - rewrite <- (Qfloor_Z k). apply Qfloor_resp_le, H.
Qed.

(** The result of [calculate_project_health] through its score: the score is
    not negative, the status is read off the score and the percentage is its
    floor. *)
Lemma calculate_project_health_view (spi cpi risk : Q) :
  let s := Spec.health_score spi cpi risk in
  0 <= s
  /\ (fst (calculate_project_health spi cpi risk) = "Green"%string <-> 75 <= s)
  /\ (fst (calculate_project_health spi cpi risk) = "Yellow"%string
      <-> 50 <= s /\ s < 75)
  /\ (fst (calculate_project_health spi cpi risk) = "Red"%string <-> s < 50)
  /\ snd (calculate_project_health spi cpi risk) = Qfloor s.
Proof.
  cbv zeta.
  assert (Hs : 0 <= Spec.health_score spi cpi risk).
  { unfold Spec.health_score, Spec.schedule_component, Spec.cost_component.
    pose proof (tier_range 1 (95 # 100) (85 # 100) spi).
    pose proof (tier_range 1 (90 # 100) (75 # 100) cpi).
    pose proof (risk_adjustment_range risk). lra. }
  split; [ exact Hs | ].
  destruct (calculate_project_health_score spi cpi risk) as (s & Es & E).
  rewrite E. cbn [fst snd].
  assert (Hint : Py.int s = Qfloor (Spec.health_score spi cpi risk)).
  { rewrite (int_comp s _ Es). apply int_nonneg, Hs. }
  clear E. set (h := Spec.health_score spi cpi risk) in *. clearbody h.
  destruct (Py.geb s 75) eqn:E75; [ apply geb_true in E75 | apply geb_false in E75 ].
  - split; [ | split; [ | split ] ]; [ split | split | split | assumption ];
      intros; try discriminate; try lra; trivial.
  - destruct (Py.geb s 50) eqn:E50; [ apply geb_true in E50 | apply geb_false in E50 ];
      (split; [ | split; [ | split ] ]; [ split | split | split | assumption ];
       intros; try discriminate; try lra; trivial).
Qed.

(** The percentage is never negative, and it is at most 100 when the risk
    score is not negative. *)
Theorem health_percentage_range (spi cpi risk : Q) :
  (0 <= snd (calculate_project_health spi cpi risk))%Z
  /\ (0 <= risk -> (snd (calculate_project_health spi cpi risk) <= 100)%Z).
Proof.
  destruct (calculate_project_health_view spi cpi risk) as (Hs & _ & _ & _ & ->).
  split.
  - apply floor_ge_iff. exact Hs.
  - intros Hr. rewrite <- (Qfloor_Z 100). apply Qfloor_resp_le.
    unfold Spec.health_score, Spec.schedule_component, Spec.cost_component.
    pose proof (tier_range 1 (95 # 100) (85 # 100) spi).
    pose proof (tier_range 1 (90 # 100) (75 # 100) cpi).
    destruct (risk_adjustment_range risk) as [_ Hadj]. specialize (Hadj Hr).
    change (inject_Z 100) with 100. lra.
Qed.

Lemma health_percentage_range_witness :
  (0 <= snd (calculate_project_health (105 # 100) (102 # 100) 10))%Z
  /\ (snd (calculate_project_health (105 # 100) (102 # 100) 10) <= 100)%Z.
Proof.
  destruct (health_percentage_range (105 # 100) (102 # 100) 10) as [Hlo Hhi].
  split; [ exact Hlo | apply Hhi; discriminate ].
Defined.

(** Status and percentage agree although the status is decided before the
    truncation: Green iff the percentage is at least 75, Yellow iff it is in
    50..74, Red iff it is below 50. *)
Theorem health_status_matches_percentage (spi cpi risk : Q) :
  let status := fst (calculate_project_health spi cpi risk) in
  let pct := snd (calculate_project_health spi cpi risk) in
  (status = "Green"%string <-> (75 <= pct)%Z)
  /\ (status = "Yellow"%string <-> (50 <= pct < 75)%Z)
  /\ (status = "Red"%string <-> (pct < 50)%Z).
Proof.
  cbv zeta.
  destruct (calculate_project_health_view spi cpi risk) as (_ & Hg & Hy & Hr & ->).
  set (s := Spec.health_score spi cpi risk) in *.
  pose proof (floor_ge_iff 75 s) as F75. pose proof (floor_ge_iff 50 s) as F50.
  change (inject_Z 75) with 75 in F75. change (inject_Z 50) with 50 in F50.
  assert (L75 : s < 75 <-> (Qfloor s < 75)%Z).
  { split; intros H.
    - apply Z.nle_gt. intros C. apply F75 in C. lra.
    - apply Qnot_le_lt. intros C. apply F75 in C. lia. }
  assert (L50 : s < 50 <-> (Qfloor s < 50)%Z).
  { split; intros H.
    - apply Z.nle_gt. intros C. apply F50 in C. lra.
    - apply Qnot_le_lt. intros C. apply F50 in C. lia. }
  rewrite Hg, Hy, Hr. tauto.
Qed.

(** A better SPI, a better CPI or a lower risk score never lowers the
    percentage. *)
Theorem health_percentage_monotone (spi spi' cpi cpi' risk risk' : Q) :
  spi <= spi' -> cpi <= cpi' -> risk' <= risk ->
  (snd (calculate_project_health spi cpi risk)
   <= snd (calculate_project_health spi' cpi' risk'))%Z.
Proof.
  intros Hspi Hcpi Hrisk.
  destruct (calculate_project_health_view spi cpi risk) as (_ & _ & _ & _ & ->).
  destruct (calculate_project_health_view spi' cpi' risk') as (_ & _ & _ & _ & ->).
  apply Qfloor_resp_le.
  unfold Spec.health_score, Spec.schedule_component, Spec.cost_component.
  pose proof (risk_adjustment_anti risk risk' Hrisk).
  assert (Spec.tier 1 (95 # 100) (85 # 100) spi <= Spec.tier 1 (95 # 100) (85 # 100) spi')
    by (apply tier_mono; [ discriminate | discriminate | assumption ]).
  assert (Spec.tier 1 (90 # 100) (75 # 100) cpi <= Spec.tier 1 (90 # 100) (75 # 100) cpi')
    by (apply tier_mono; [ discriminate | discriminate | assumption ]).
  lra.
Qed.

Lemma health_percentage_monotone_witness :
  (snd (calculate_project_health (938 # 1000) (6 # 1000) 70)
   <= snd (calculate_project_health (105 # 100) (102 # 100) 10))%Z.
Proof.
  apply (health_percentage_monotone (938 # 1000) (105 # 100) (6 # 1000) (102 # 100) 70 10);
    discriminate.
Defined.

Lemma on_track_green (spi cpi risk : Q) :
  1 <= spi -> 1 <= cpi ->
  fst (calculate_project_health spi cpi risk) = "Green"%string.
Proof.
  intros Hspi Hcpi.
  destruct (calculate_project_health_view spi cpi risk) as (_ & Hg & _).
  apply Hg. unfold Spec.health_score, Spec.schedule_component, Spec.cost_component.
  rewrite (proj1 (tier_values 1 (95 # 100) (85 # 100) spi) Hspi).
  rewrite (proj1 (tier_values 1 (90 # 100) (75 # 100) cpi) Hcpi).
  pose proof (risk_adjustment_range risk). lra.
Qed.

(** A project at or above 1.0 on both indices is Green whatever its risk
    score. *)
Theorem health_on_track_is_green (spi cpi risk : Q) :
  1 <= spi -> 1 <= cpi ->
  fst (calculate_project_health spi cpi risk) = "Green"%string.
Proof. apply on_track_green. Qed.

Lemma health_on_track_is_green_witness :
  fst (calculate_project_health 1 1 100) = "Green"%string.
Proof. apply (health_on_track_is_green 1 1 100); discriminate. Defined.

(** With a risk score that is not negative, Green needs an SPI of at least
    0.95 and a CPI of at least 0.90, and a project below 0.85 and 0.75 is
    Red. *)
Theorem health_status_needs (spi cpi risk : Q) :
  0 <= risk ->
  (fst (calculate_project_health spi cpi risk) = "Green"%string ->
   95 # 100 <= spi /\ 90 # 100 <= cpi)
  /\ (spi < 85 # 100 -> cpi < 75 # 100 ->
      fst (calculate_project_health spi cpi risk) = "Red"%string).
Proof.
  intros Hr.
  destruct (calculate_project_health_view spi cpi risk) as (_ & Hg & _ & Hred & _).
  destruct (risk_adjustment_range risk) as [_ Hadj]. specialize (Hadj Hr).
  pose proof (tier_range 1 (95 # 100) (85 # 100) spi) as Rs.
  pose proof (tier_range 1 (90 # 100) (75 # 100) cpi) as Rc.
  destruct (tier_values 1 (95 # 100) (85 # 100) spi) as (_ & _ & Hs10 & Hs0).
  destruct (tier_values 1 (90 # 100) (75 # 100) cpi) as (_ & _ & Hc10 & Hc0).
  unfold Spec.health_score, Spec.schedule_component, Spec.cost_component in *.
  split.
  - intros G. apply Hg in G. split.
    + destruct (Qlt_le_dec spi (95 # 100)) as [L | L]; [ | assumption ].
      assert (L1 : spi < 1) by lra.
      destruct (Qlt_le_dec spi (85 # 100)) as [L' | L'];
        [ rewrite (Hs0 L1 L L') in G | rewrite (Hs10 L1 L L') in G ]; lra.
    + destruct (Qlt_le_dec cpi (90 # 100)) as [L | L]; [ | assumption ].
      assert (L1 : cpi < 1) by lra.
      destruct (Qlt_le_dec cpi (75 # 100)) as [L' | L'];
        [ rewrite (Hc0 L1 L L') in G | rewrite (Hc10 L1 L L') in G ]; lra.
  - intros Ls Lc. apply Hred.
    rewrite Hs0, Hc0 by lra. lra.
Qed.

Lemma health_status_needs_witness :
  fst (calculate_project_health (80 # 100) (70 # 100) 0) = "Red"%string.
Proof.
  apply (health_status_needs (80 # 100) (70 # 100) 0); reflexivity || discriminate.
Defined.

End HealthMore.

(** ** The cache across calls *)

Section CacheMore.

Variable clock : nat -> Z.

(** A call builds the record of the current clock reading and stores it. *)
Lemma calculate_metrics_at (pid : string) (kw : Kwargs) (st : State) :
  calculate_metrics clock pid kw st
  = (Inv.metrics_at (clock (ticks st)) pid kw,
     {| metrics_cache :=
          <[pid := Inv.metrics_at (clock (ticks st)) pid kw]> (metrics_cache st);
        ticks := S (ticks st) |}).
Proof.
  unfold Inv.metrics_at. rewrite !calculate_metrics_fields. reflexivity.
Qed.

(** Only the timestamp of a record depends on the time of the call. *)
Lemma metrics_at_time (t t' : Z) (pid : string) (kw : Kwargs) :
  let m := Inv.metrics_at t pid kw in
  let m' := Inv.metrics_at t' pid kw in
  risk_score m = risk_score m'
  /\ team_utilization m = team_utilization m'
  /\ schedule_performance_index m = schedule_performance_index m'
  /\ health_status m = health_status m'.
Proof.
  cbv zeta. unfold Inv.metrics_at. rewrite !calculate_metrics_fields.
  cbn [fst risk_score team_utilization schedule_performance_index health_status].
  tauto.
Qed.

Lemma health_status_enum (spi cpi risk : Q) :
  let status := fst (calculate_project_health spi cpi risk) in
  status = "Green"%string \/ status = "Yellow"%string \/ status = "Red"%string.
Proof.
  cbv zeta.
  destruct (calculate_project_health_score spi cpi risk) as (s & _ & ->).
  cbn [fst]. destruct (Py.geb s 75); [ tauto | ].
  destruct (Py.geb s 50); tauto.
Qed.

Lemma metrics_at_ok (t : Z) (pid : string) (kw : Kwargs) :
  Inv.record_ok pid (Inv.metrics_at t pid kw).
Proof.
  unfold Inv.record_ok, Inv.metrics_at. rewrite calculate_metrics_fields.
  cbn [fst project_id risk_score health_status schedule_performance_index
         cost_performance_index].
  split; [ reflexivity | ].
  split; [ apply calculate_risk_score_le_100 | ].
  split; [ apply health_status_enum | reflexivity ].
Qed.

Lemma calculate_metrics_keeps_ok (pid : string) (kw : Kwargs) (st : State) :
  Inv.cache_ok st -> Inv.cache_ok (snd (calculate_metrics clock pid kw st)).
Proof.
  intros Hok key m. rewrite calculate_metrics_at. cbn [snd metrics_cache].
  destruct (decide (pid = key)) as [<- | Hne].
  - rewrite lookup_insert_eq. intros [= <-]. apply metrics_at_ok.
  - rewrite lookup_insert_ne by assumption. apply Hok.
Qed.

(** A call leaves the entries of the other ids alone. *)
Theorem calculate_metrics_frame (pid other : string) (kw : Kwargs) (st : State) :
  other <> pid ->
  get_project_metrics other (snd (calculate_metrics clock pid kw st))
  = get_project_metrics other st.
Proof.
  intros Hne. unfold get_project_metrics.
  rewrite calculate_metrics_at. cbn [snd metrics_cache].
  apply lookup_insert_ne. congruence.
Qed.

(** The state after [calculate_portfolio_metrics] is the state after the
    sequential run, also for an empty list. *)
Lemma portfolio_state (projects : list Project) (st : State) :
  snd (calculate_portfolio_metrics clock projects st)
  = snd (Spec.run_pipeline clock projects st).
Proof.
  destruct projects as [ | proj rest ]; [ reflexivity | ].
  unfold calculate_portfolio_metrics.
  match goal with
  | |- context [fold_left _ ?ps (?l, st)] =>
      destruct (portfolio_loop clock ps l st) as (Hst & _);
      destruct (fold_left (portfolio_step clock) ps (l, st)) as [loc st']
  end.
  exact Hst.
Qed.

Lemma run_pipeline_cons (proj : Project) (rest : list Project) (st : State) :
  let m := Inv.metrics_at (clock (ticks st)) (proj_id proj) (Inv.data_of proj) in
  let st1 := {| metrics_cache := <[proj_id proj := m]> (metrics_cache st);
                ticks := S (ticks st) |} in
  Spec.run_pipeline clock (proj :: rest) st
  = (m :: fst (Spec.run_pipeline clock rest st1),
     snd (Spec.run_pipeline clock rest st1)).
Proof.
  cbv zeta. cbn [Spec.run_pipeline]. rewrite calculate_metrics_at.
  unfold Inv.data_of.
  destruct (Spec.run_pipeline clock rest _) as [ms st2]. reflexivity.
Qed.

Lemma run_pipeline_keeps_ok (projects : list Project) :
  forall st : State,
    Inv.cache_ok st -> Inv.cache_ok (snd (Spec.run_pipeline clock projects st)).
Proof.
  induction projects as [ | proj rest IH ]; intros st Hok; [ exact Hok | ].
  rewrite run_pipeline_cons. cbn [snd]. apply IH.
  intros key m. cbn [metrics_cache].
  destruct (decide (proj_id proj = key)) as [<- | Hne].
  - rewrite lookup_insert_eq. intros [= <-]. apply metrics_at_ok.
  - rewrite lookup_insert_ne by assumption. apply Hok.
Qed.

(** The cache invariant: on a fresh engine, and after any call of
    [calculate_metrics] or [calculate_portfolio_metrics] on a state that has
    it, every cached record carries the id it is stored under, a risk score
    of at most 100, one of the three statuses, and the status that
    [calculate_project_health] gives for its own SPI, CPI and risk score. *)
Theorem cache_invariant :
  Inv.cache_ok init
  /\ (forall pid kw st,
        Inv.cache_ok st -> Inv.cache_ok (snd (calculate_metrics clock pid kw st)))
  /\ (forall projects st,
        Inv.cache_ok st ->
        Inv.cache_ok (snd (calculate_portfolio_metrics clock projects st))).
Proof.
  split; [ | split ].
  - intros key m. cbn. rewrite lookup_empty. discriminate.
  - apply calculate_metrics_keeps_ok.
  - intros projects st Hok. rewrite portfolio_state.
    apply run_pipeline_keeps_ok, Hok.
Qed.

Lemma run_pipeline_dom (projects : list Project) :
  forall st : State,
    dom (metrics_cache (snd (Spec.run_pipeline clock projects st)))
    = dom (metrics_cache st) ∪ list_to_set (map proj_id projects).
Proof.
  induction projects as [ | proj rest IH ]; intros st.
  - cbn [Spec.run_pipeline snd map list_to_set]. now rewrite union_empty_r_L.
  - rewrite run_pipeline_cons. cbn [snd]. rewrite IH.
    cbn [metrics_cache map list_to_set].
    rewrite dom_insert_L, (comm_L (∪) {[ proj_id proj ]} (dom (metrics_cache st))).
    now rewrite (assoc_L (∪)).
Qed.

(** After a portfolio run the cached ids are the ones cached before and the
    ids of the projects. *)
Theorem portfolio_cache_ids (projects : list Project) (st : State) :
  dom (metrics_cache (snd (calculate_portfolio_metrics clock projects st)))
  = dom (metrics_cache st) ∪ list_to_set (map proj_id projects).
Proof. rewrite portfolio_state. apply run_pipeline_dom. Qed.

Lemma run_pipeline_frame (projects : list Project) (pid : string) :
  forall st : State,
    pid ∉ map proj_id projects ->
    metrics_cache (snd (Spec.run_pipeline clock projects st)) !! pid
    = metrics_cache st !! pid.
Proof.
  induction projects as [ | proj rest IH ]; intros st Hnot; [ reflexivity | ].
  rewrite run_pipeline_cons. cbn [snd].
  cbn [map] in Hnot. apply not_elem_of_cons in Hnot as [Hne Hrest].
  rewrite IH by assumption. cbn [metrics_cache].
  apply lookup_insert_ne. congruence.
Qed.

Lemma run_pipeline_last (before : list Project) :
  forall (proj : Project) (after : list Project) (st : State),
    proj_id proj ∉ map proj_id after ->
    metrics_cache (snd (Spec.run_pipeline clock (before ++ proj :: after) st))
      !! proj_id proj
    = Some (Inv.metrics_at (clock (ticks st + length before)%nat)
              (proj_id proj) (Inv.data_of proj)).
Proof.
  induction before as [ | b before IH ]; intros proj after st Hnot.
  - cbn [app length]. rewrite Nat.add_0_r, run_pipeline_cons. cbn [snd].
    rewrite run_pipeline_frame by assumption. cbn [metrics_cache].
    apply lookup_insert_eq.
  - cbn [app length]. rewrite run_pipeline_cons. cbn [snd].
    rewrite IH by assumption. cbn [ticks].
    rewrite Nat.add_succ_r. reflexivity.
Qed.

(** Last write wins inside a portfolio run: for a project that no later
    project shares its id with, [get_project_metrics] afterwards returns the
    record built from that project's data at the clock reading of its turn
    (one reading per project). *)
Theorem portfolio_caches_last (before after : list Project) (proj : Project)
    (st : State) :
  proj_id proj ∉ map proj_id after ->
  get_project_metrics (proj_id proj)
    (snd (calculate_portfolio_metrics clock (before ++ proj :: after) st))
  = Some (Inv.metrics_at (clock (ticks st + length before)%nat)
            (proj_id proj) (Inv.data_of proj)).
Proof.
  intros Hnot. unfold get_project_metrics. rewrite portfolio_state.
  apply run_pipeline_last, Hnot.
Qed.

(** A portfolio run leaves the entries of ids that are not in it alone. *)
Theorem portfolio_cache_frame (projects : list Project) (pid : string) (st : State) :
  pid ∉ map proj_id projects ->
  get_project_metrics pid (snd (calculate_portfolio_metrics clock projects st))
  = get_project_metrics pid st.
Proof.
  intros Hnot. unfold get_project_metrics. rewrite portfolio_state.
  apply run_pipeline_frame, Hnot.
Qed.

End CacheMore.

Lemma calculate_metrics_frame_witness :
  get_project_metrics "PROJ-002"
    (snd (calculate_metrics Sample.clock "PROJ-001" Sample.proj_001 init))
  = get_project_metrics "PROJ-002" init.
Proof.
  apply (calculate_metrics_frame Sample.clock "PROJ-001" "PROJ-002").
  discriminate.
Defined.

Lemma cache_invariant_witness :
  Inv.cache_ok
    (snd (calculate_portfolio_metrics Sample.clock Sample.portfolio
            (snd (calculate_metrics Sample.clock "PROJ-009" Sample.proj_002 init)))).
Proof.
  destruct (cache_invariant Sample.clock) as (Hinit & Hone & Hall).
  apply Hall, Hone, Hinit.
Defined.

Lemma portfolio_caches_last_witness :
  get_project_metrics "PROJ-002"
    (snd (calculate_portfolio_metrics Sample.clock Sample.portfolio init))
  = Some (Inv.metrics_at 1 "PROJ-002" Sample.proj_002).
Proof.
  apply (portfolio_caches_last Sample.clock
           [ {| proj_id := "PROJ-001"; proj_data := Some Sample.proj_001 |} ]
           [ {| proj_id := "PROJ-003"; proj_data := None |} ]
           {| proj_id := "PROJ-002"; proj_data := Some Sample.proj_002 |} init).
  cbn [map proj_id]. intros H. apply list_elem_of_In in H. cbn in H.
  destruct H as [H | []]. discriminate.
Defined.

Lemma portfolio_cache_frame_witness :
  get_project_metrics "PROJ-007"
    (snd (calculate_portfolio_metrics Sample.clock Sample.portfolio init))
  = get_project_metrics "PROJ-007" init.
Proof.
  apply (portfolio_cache_frame Sample.clock Sample.portfolio "PROJ-007" init).
  intros H. apply list_elem_of_In in H. cbn in H.
  destruct H as [H | [H | [H | []]]]; discriminate.
Defined.

(** ** From the field bag to the status *)

Section EndToEnd.

Variable clock : nat -> Z.


End EndToEnd.


(** ** The summary of a portfolio run *)

Section SummaryMore.

Variable clock : nat -> Z.

(** The summary of a non-empty portfolio: the three averages written over a
    dictionary that holds the five keys, the count of projects and the count
    of Red records. *)
Lemma portfolio_result (projects : list Project) (st : State) :
  projects <> [] ->
  let ms := fst (Spec.run_pipeline clock projects st) in
  exists pm : gmap string Q,
    fst (calculate_portfolio_metrics clock projects st)
    = <["avg_schedule_health"%string := Py.mean (map schedule_performance_index ms)]>
      (<["avg_budget_utilization"%string := Py.mean (map team_utilization ms)]>
      (<["avg_health_score"%string := Py.mean (map risk_score ms)]> pm))
    /\ dom pm = Inv.summary_keys
    /\ pm !! "total_projects"%string = Some (inject_Z (Z.of_nat (length projects)))
    /\ pm !! "at_risk_count"%string
       = Some (inject_Z (Z.of_nat (length (List.filter Spec.is_red ms)))).
Proof.
  intros Hne. cbv zeta.
  pose proof (run_pipeline_length clock projects st) as Hlen.
  assert (Hms : fst (Spec.run_pipeline clock projects st) <> []).
  { intros E. rewrite E in Hlen. destruct projects; [ congruence | discriminate ]. }
  unfold calculate_portfolio_metrics.
  destruct projects as [ | proj rest ]; [ congruence | ].
  set (projects := proj :: rest) in *.
  match goal with
  | |- context [fold_left _ projects (?l, st)] =>
      destruct (portfolio_loop clock projects l st) as (_ & Hh & Hu & Hs & Hother & Hred);
      destruct (fold_left (portfolio_step clock) projects (l, st)) as [loc st']
  end.
  cbn [fst snd health_scores utilizations schedule_indices portfolio_metrics app] in *.
  specialize (Hred 0%nat eq_refl). cbn [Nat.add] in Hred.
  rewrite Hh, Hu, Hs.
  rewrite !mean_or_zero_nonempty
    by (intros E; apply map_eq_nil in E; contradiction).
  exists (portfolio_metrics loc).
  split; [ reflexivity | ].
  split; [ | split; [ | exact Hred ] ].
  - apply set_eq. intros key. rewrite elem_of_dom.
    destruct (decide (key = "at_risk_count"%string)) as [-> | Hkey].
    + rewrite Hred. split; [ intros _; vm_compute; reflexivity | eauto ].
    + rewrite (Hother key Hkey). rewrite <- elem_of_dom.
      rewrite !dom_insert_L, dom_empty_L. reflexivity.
  - rewrite Hother by discriminate.
    rewrite !lookup_insert_ne by discriminate. apply lookup_insert_eq.
Qed.

(** What the records of a run give for a field that does not depend on the
    time of the call. *)
Lemma run_pipeline_map {A} (f : ProjectMetrics -> A) :
  (forall t t' pid kw, f (Inv.metrics_at t pid kw) = f (Inv.metrics_at t' pid kw)) ->
  forall (projects : list Project) (st : State),
    map f (fst (Spec.run_pipeline clock projects st))
    = map (fun p => f (Inv.metrics_at 0 (proj_id p) (Inv.data_of p))) projects.
Proof.
  intros Hf. induction projects as [ | proj rest IH ]; intros st; [ reflexivity | ].
  rewrite run_pipeline_cons. cbn [fst map]. rewrite IH. f_equal. apply Hf.
Qed.

Lemma fold_plus_le (c : Q) (l : list Q) :
  Forall (fun r => r <= c) l ->
  forall a, fold_left Qplus l a <= a + inject_Z (Z.of_nat (length l)) * c.
Proof.
  induction 1 as [ | r l Hr _ IH ]; intros a; cbn [fold_left length].
  - change (inject_Z (Z.of_nat 0)) with 0. lra.
  - specialize (IH (a + r)).
    rewrite Nat2Z.inj_succ, <- Z.add_1_r, inject_Z_plus.
    change (inject_Z 1) with 1. lra.
Qed.

(** The mean of numbers that are at most [c] is at most [c]. *)
Lemma mean_le (c x : Q) (l : list Q) :
  Forall (fun r => r <= c) (x :: l) -> Py.mean (x :: l) <= c.
Proof.
  intros H. unfold Py.mean, Py.sum.
  apply Qle_shift_div_r.
  - replace 0 with (inject_Z 0) by reflexivity. rewrite <- Zlt_Qlt. cbn [length]. lia.
  - pose proof (fold_plus_le c (x :: l) H 0). lra.
Qed.

Lemma filter_length_le {A} (p : A -> bool) (l : list A) :
  (length (List.filter p l) <= length l)%nat.
Proof.
  induction l as [ | a l IH ]; cbn; [ lia | ].
  destruct (p a); cbn; lia.
Qed.

(** A non-empty portfolio gives a summary with exactly the five keys. *)
Theorem portfolio_summary_keys (projects : list Project) (st : State) :
  projects <> [] ->
  dom (fst (calculate_portfolio_metrics clock projects st)) = Inv.summary_keys.
Proof.
  intros Hne.
  destruct (portfolio_result projects st Hne) as (pm & -> & Hdom & _).
  rewrite !dom_insert_L, Hdom. vm_compute. reflexivity.
Qed.

(** In the summary of a non-empty portfolio, [at_risk_count] is a count
    between 0 and the number of projects, and [avg_health_score] (the mean
    risk score) is at most 100. *)
Theorem portfolio_summary_bounds (projects : list Project) (st : State) :
  projects <> [] ->
  let summary := fst (calculate_portfolio_metrics clock projects st) in
  exists (red : nat) (h : Q),
    summary !! "at_risk_count"%string = Some (inject_Z (Z.of_nat red))
    /\ (red <= length projects)%nat
    /\ summary !! "avg_health_score"%string = Some h
    /\ h <= 100.
Proof.
  intros Hne. cbv zeta.
  destruct (portfolio_result projects st Hne) as (pm & -> & _ & _ & Hred).
  pose proof (run_pipeline_length clock projects st) as Hlen.
  set (ms := fst (Spec.run_pipeline clock projects st)) in *.
  exists (length (List.filter Spec.is_red ms)), (Py.mean (map risk_score ms)).
  split; [ rewrite !lookup_insert_ne by discriminate; exact Hred | ].
  split; [ rewrite <- Hlen; apply filter_length_le | ].
  split; [ rewrite !lookup_insert_ne by discriminate; apply lookup_insert_eq | ].
  assert (Hall : Forall (fun r => r <= 100) (map risk_score ms)).
  { unfold ms. rewrite (run_pipeline_map risk_score)
      by (intros t t' pid kw; apply (metrics_at_time t t' pid kw)).
    apply List.Forall_map, List.Forall_forall. intros p _.
    apply (metrics_at_ok 0 (proj_id p) (Inv.data_of p)). }
  destruct (map risk_score ms) as [ | r l ] eqn:E.
  - apply map_eq_nil in E. destruct projects; [ congruence | ].
    rewrite E in Hlen. discriminate.
  - apply mean_le, Hall.
Qed.

End SummaryMore.

Lemma portfolio_summary_keys_witness :
  dom (fst (calculate_portfolio_metrics Sample.clock Sample.portfolio init))
  = Inv.summary_keys.
Proof.
  apply (portfolio_summary_keys Sample.clock Sample.portfolio init). discriminate.
Defined.

Lemma portfolio_summary_bounds_witness :
  exists (red : nat) (h : Q),
    fst (calculate_portfolio_metrics Sample.clock Sample.portfolio init)
      !! "at_risk_count"%string = Some (inject_Z (Z.of_nat red))
    /\ (red <= 3)%nat
    /\ fst (calculate_portfolio_metrics Sample.clock Sample.portfolio init)
         !! "avg_health_score"%string = Some h
    /\ h <= 100.
Proof.
  apply (portfolio_summary_bounds Sample.clock Sample.portfolio init). discriminate.
Defined.

(** ** The order of the projects *)

Section Order.

Lemma filter_length_perm {A} (p : A -> bool) (l l' : list A) :
  Permutation l l' -> length (List.filter p l) = length (List.filter p l').
Proof.
  induction 1 as [ | x l l' _ IH | x y l | l l' l'' _ IH1 _ IH2 ]; cbn [List.filter].
  - reflexivity.
  - destruct (p x); cbn [length]; congruence.
  - destruct (p x), (p y); reflexivity.
  - congruence.
Qed.

Lemma filter_length_map {A B} (g : A -> B) (p : B -> bool) (l : list A) :
  length (List.filter p (map g l)) = length (List.filter (fun a => p (g a)) l).
Proof.
  induction l as [ | a l IH ]; cbn [map List.filter]; [ reflexivity | ].
  destruct (p (g a)); cbn [length]; congruence.
Qed.

(** The two counts of the summary depend on the projects' data only, not on
    their order, nor on the cache or the clock: two runs over permutations
    of one list give the same [total_projects], the same [at_risk_count] and
    the same set of keys. *)
Theorem portfolio_counts_order_irrelevant (clock clock' : nat -> Z)
    (projects projects' : list Project) (st st' : State) :
  Permutation projects projects' ->
  let summary := fst (calculate_portfolio_metrics clock projects st) in
  let summary' := fst (calculate_portfolio_metrics clock' projects' st') in
  summary !! "total_projects"%string = summary' !! "total_projects"%string
  /\ summary !! "at_risk_count"%string = summary' !! "at_risk_count"%string
  /\ dom summary = dom summary'.
Proof.
  intros Hperm. cbv zeta.
  destruct projects as [ | p ps ].
  { apply Permutation_nil in Hperm. subst projects'. cbn. tauto. }
  assert (Hne : p :: ps <> []) by discriminate.
  assert (Hne' : projects' <> []).
  { intros ->. symmetry in Hperm. apply Permutation_nil in Hperm. discriminate. }
  set (projects := p :: ps) in *.
  destruct (portfolio_result clock projects st Hne) as (pm & -> & Hdom & Htot & Hred).
  destruct (portfolio_result clock' projects' st' Hne')
    as (pm' & -> & Hdom' & Htot' & Hred').
  rewrite !dom_insert_L, Hdom, Hdom'.
  rewrite !(lookup_insert_ne _ _ "total_projects"%string) by discriminate.
  rewrite !(lookup_insert_ne _ _ "at_risk_count"%string) by discriminate.
  rewrite Htot, Htot', Hred, Hred', (Permutation_length Hperm).
  split; [ reflexivity | split; [ | reflexivity ] ].
  do 3 f_equal.
  rewrite <- (map_id (fst (Spec.run_pipeline clock projects st))).
  rewrite <- (map_id (fst (Spec.run_pipeline clock' projects' st'))).
  rewrite !filter_length_map.
  rewrite <- !(filter_length_map Spec.is_red (fun b : bool => b)).
  apply filter_length_perm.
  assert (Htime : forall t t' pid kw,
             Spec.is_red (Inv.metrics_at t pid kw)
             = Spec.is_red (Inv.metrics_at t' pid kw)).
  { intros t t' pid kw. unfold Spec.is_red.
    now rewrite (proj2 (proj2 (proj2 (metrics_at_time t t' pid kw)))). }
  rewrite !(run_pipeline_map _ Spec.is_red Htime).
  apply Permutation_map, Hperm.
Qed.

End Order.

Lemma portfolio_counts_order_irrelevant_witness :
  fst (calculate_portfolio_metrics Sample.clock Sample.portfolio init)
    !! "at_risk_count"%string
  = fst (calculate_portfolio_metrics Sample.clock (rev Sample.portfolio) init)
      !! "at_risk_count"%string.
Proof.
  apply (portfolio_counts_order_irrelevant Sample.clock Sample.clock
           Sample.portfolio (rev Sample.portfolio) init init).
  apply Permutation_rev.
Defined.

(** * The returned values, over binary64 *)

Section Binary64.

Local Open Scope float_scope.

(** ** Signs through the IEEE operations *)

Lemma round_aux_unsigned (m e : Z) (l : location) :
  Float64.unsigned (binary_round_aux prec emax false m e l).
Proof.
  unfold binary_round_aux.
  destruct (shr_fexp prec emax m e l) as [r1 e1].
  destruct (shr_fexp prec emax _ e1 loc_Exact) as [r2 e2].
  destruct (shr_m r2); [ reflexivity | | exact I ].
  destruct (e2 <=? emax - prec)%Z; reflexivity.
Qed.

Lemma SFmul_unsigned (x y : spec_float) :
  Float64.unsigned x -> Float64.unsigned y ->
  Float64.unsigned (SFmul prec emax x y).
Proof.
  destruct x as [sx | sx | | sx mx ex], y as [sy | sy | | sy my ey];
    cbn [Float64.unsigned SFmul]; intros Hx Hy; subst; trivial.
  apply round_aux_unsigned.
Qed.

Lemma SFadd_unsigned (x y : spec_float) :
  Float64.unsigned x -> Float64.unsigned y ->
  Float64.unsigned (SFadd prec emax x y).
Proof.
  destruct x as [sx | sx | | sx mx ex], y as [sy | sy | | sy my ey];
    cbn [Float64.unsigned SFadd]; intros Hx Hy; subst;
    cbn [Float64.unsigned SFadd cond_Zopp Z.add binary_normalize]; trivial.
  generalize (fst (shl_align mx ex (Z.min ex ey))),
    (fst (shl_align my ey (Z.min ex ey))). intros a b.
  unfold binary_normalize, binary_round. simpl.
  destruct (shl_align _ _ _) as [mz ez]. apply round_aux_unsigned.
Qed.

Lemma SFabs_unsigned (x : spec_float) : Float64.unsigned (SFabs x).
Proof. destruct x; cbn; trivial. Qed.

(** Adding the integer 0 to a float whose sign bit is clear changes nothing. *)
Lemma add_0_l (y : float) : Float64.unsigned (Prim2SF y) -> 0 + y = y.
Proof.
  intros Hy. apply Prim2SF_inj. rewrite add_spec.
  change (Prim2SF 0) with (S754_zero false). unfold SF64add.
  destruct (Prim2SF y) as [sy | sy | | sy my ey]; cbn in *; subst; reflexivity.
Qed.

Lemma add_0_r (y : float) : Float64.unsigned (Prim2SF y) -> y + 0 = y.
Proof.
  intros Hy. apply Prim2SF_inj. rewrite add_spec.
  change (Prim2SF 0) with (S754_zero false). unfold SF64add.
  destruct (Prim2SF y) as [sy | sy | | sy my ey]; cbn in *; subst; reflexivity.
Qed.

Lemma variance_component_unsigned (v : float) :
  Float64.unsigned (Prim2SF (Float64.Spec.variance_component v)).
Proof.
  unfold Float64.Spec.variance_component. rewrite mul_spec.
  apply SFmul_unsigned; [ | vm_compute; reflexivity ].
  unfold Float64.min. destruct (abs v * 10 <? 100).
  - rewrite mul_spec. apply SFmul_unsigned; [ | vm_compute; reflexivity ].
    rewrite abs_spec. apply SFabs_unsigned.
  - vm_compute. reflexivity.
Qed.

(** ** The index calculators *)

(** C5. [calculate_schedule_performance_index] returns 0.0 when
    [planned_value == 0], and [round(earned_value / planned_value, 3)]
    otherwise, the division and the rounding being the ones of Python on
    binary64; it is a total function, so no input makes it fail. *)
Theorem schedule_performance_index_value (ev pv : float) :
  ((pv =? 0) = true -> Float64.calculate_schedule_performance_index ev pv = 0)
  /\ ((pv =? 0) = false ->
      Float64.calculate_schedule_performance_index ev pv
      = Float64.round (ev / pv) 3).
Proof.
  unfold Float64.calculate_schedule_performance_index.
  split; intros H; rewrite H; reflexivity.
Qed.

Lemma schedule_performance_index_value_witness :
  Float64.calculate_schedule_performance_index 750 0 = 0
  /\ Float64.calculate_schedule_performance_index 1799 2000
     = Float64.round (1799 / 2000) 3.
Proof.
  split.
  - apply (schedule_performance_index_value 750 0). reflexivity.
  - apply (schedule_performance_index_value 1799 2000). reflexivity.
Defined.


(** ** The health classification *)

(** [int] returns on the finite floats and raises on the others. *)
Lemma int_returns (x : float) :
  (exists n, Float64.int x = Float64.Ok n) <-> (exists q, Float64.exact x = Some q).
Proof.
  unfold Float64.int, Float64.exact.
  destruct (Prim2SF x); split; intros [v H]; try discriminate; eauto.
Qed.

(** The points the two tier blocks of the code accumulate. *)
Lemma tier_blocks (spi cpi : float) :
  (let score := 0 in
   let score :=
     if 1 <=? spi then score + 40
     else if Float64.SCHEDULE_THRESHOLD_YELLOW <=? spi then score + 25
     else if Float64.SCHEDULE_THRESHOLD_RED <=? spi then score + 10
     else score in
   let score :=
     if 1 <=? cpi then score + 40
     else if Float64.COST_THRESHOLD_YELLOW <=? cpi then score + 25
     else if Float64.COST_THRESHOLD_RED <=? cpi then score + 10
     else score in
   score)
  = Float64.Spec.schedule_component spi + Float64.Spec.cost_component cpi.
Proof.
  cbv zeta.
  unfold Float64.Spec.schedule_component, Float64.Spec.cost_component,
    Float64.Spec.tier, Float64.SCHEDULE_THRESHOLD_YELLOW,
    Float64.SCHEDULE_THRESHOLD_RED, Float64.COST_THRESHOLD_YELLOW,
    Float64.COST_THRESHOLD_RED.
  destruct (1 <=? spi), (0.95 <=? spi), (0.85 <=? spi),
    (1 <=? cpi), (0.90 <=? cpi), (0.75 <=? cpi); reflexivity.
Qed.

(** A score that is at least 75 is at least 50. *)
Lemma leb_75_50 (x : float) : (75 <=? x) = true -> (50 <=? x) = true.
Proof.
  rewrite !leb_spec.
  change (Prim2SF 75) with (S754_finite false 5277655813324800 (-46)).
  change (Prim2SF 50) with (S754_finite false 7036874417766400 (-47)).
  destruct (Prim2SF x) as [s | s | | s m e]; unfold SFleb, SFcompare;
    try destruct s; trivial.
  destruct (Z.compare_spec (-46) e) as [E | E | E]; try discriminate.
  - subst e. intros _. reflexivity.
  - intros _. destruct (Z.compare_spec (-47) e) as [E' | E' | E']; trivial; lia.
Qed.

(** C1. For all binary64 [spi], [cpi] and [risk_score], with the score the
    sum of the schedule tier (40/25/10/0 at 1.0, 0.95, 0.85), the cost tier
    (40/25/10/0 at 1.0, 0.90, 0.75) and the risk adjustment
    [max(0, 20 * (1 - risk_score/100))], each operation the one of Python on
    binary64: [calculate_project_health] returns [(status, percentage)] with
    the percentage the score truncated to an integer and the status Green
    iff [score >= 75], Yellow iff [score >= 50] and not [score >= 75], Red
    iff not [score >= 50]; it raises exactly when [int] does, that is on a
    score that is not finite. *)
Theorem project_health_value (spi cpi risk : float) :
  let score := Float64.Spec.health_score spi cpi risk in
  match Float64.calculate_project_health spi cpi risk with
  | Float64.Ok (status, percentage) =>
      Float64.int score = Float64.Ok percentage
      /\ (status = "Green"%string <-> (75 <=? score) = true)
      /\ (status = "Yellow"%string
          <-> (50 <=? score) = true /\ (75 <=? score) = false)
      /\ (status = "Red"%string <-> (50 <=? score) = false)
  | Float64.Raise e => Float64.int score = Float64.Raise e
  end.
Proof.
  cbv zeta. unfold Float64.calculate_project_health. cbv zeta.
  pose proof (tier_blocks spi cpi) as E. cbv zeta in E. rewrite E. clear E.
  fold (Float64.Spec.risk_adjustment risk).
  fold (Float64.Spec.health_score spi cpi risk).
  set (score := Float64.Spec.health_score spi cpi risk).
  destruct (Float64.int score) as [pct | e]; [ | reflexivity ].
  split; [ reflexivity | ].
  pose proof (leb_75_50 score) as Hmono.
  destruct (75 <=? score).
  - rewrite (Hmono eq_refl).
    split; [ | split ]; split; intros H; trivial; try discriminate.
    destruct H as [_ H]. discriminate.
  - clear Hmono. destruct (50 <=? score);
      (split; [ | split ]; split; intros H; trivial; try discriminate; auto).
    destruct H as [H _]. discriminate.
Qed.

(** ** The risk score *)

(** C2. [calculate_risk_score] returns [round(min(100, S + C + F), 1)] with
    [S = min(100, |schedule_variance| * 10) * 0.3],
    [C = min(100, |cost_variance| * 10) * 0.3] and [F] the mean of the risk
    factors times 0.4, or 0 for an empty list, each operation the one of
    Python on binary64: [min(100, T)] is [T] when [T < 100] and the integer
    100, which rounds to itself, otherwise; the rounding is the builtin one
    without risk factors and numpy's with them. *)
Theorem risk_score_value (np_mean : list float -> float)
    (np_round : float -> nat -> float) (sv cv : float) (rf : list float) :
  let S := Float64.min 100 (abs sv * 10) * 0.3 in
  let C := Float64.min 100 (abs cv * 10) * 0.3 in
  let F := match rf with
           | [] => 0
           | _ :: _ => np_mean rf * 0.4
           end in
  let T := S + C + F in
  Float64.calculate_risk_score np_mean np_round sv cv rf
  = if T <? 100
    then match rf with
         | [] => Float64.round T 1
         | _ :: _ => np_round T 1%nat
         end
    else 100.
Proof.
  cbv zeta. unfold Float64.calculate_risk_score. cbv zeta.
  fold (Float64.Spec.variance_component sv).
  fold (Float64.Spec.variance_component cv).
  pose proof (variance_component_unsigned sv) as Hs.
  pose proof (variance_component_unsigned cv) as Hc.
  rewrite (add_0_l _ Hs).
  destruct rf as [ | r rf ]; [ | reflexivity ].
  rewrite add_0_r; [ reflexivity | ].
  rewrite add_spec. apply SFadd_unsigned; assumption.
Qed.

End Binary64.



(** ** Values of the binary64 functions *)

Section Binary64Values.

Local Open Scope float_scope.

Example spi_1799_2000 :
  Float64.calculate_schedule_performance_index 1799 2000 = 0.899.
Proof. vm_compute. reflexivity. Qed.

Example spi_sample_binary64 :
  Float64.calculate_schedule_performance_index 750 800 = 0.938.
Proof. vm_compute. reflexivity. Qed.

Example cpi_1_80 : Float64.calculate_cost_performance_index 1 80 = 0.013.
Proof. vm_compute. reflexivity. Qed.

Example round_builtin :
  Float64.round 2.675 2 = 2.67 /\ Float64.round 0.125 2 = 0.12
  /\ Float64.round 2.5 0 = 2 /\ Float64.round (-0.0001) 3 = -0
  /\ Float64.round infinity 3 = infinity.
Proof. repeat split; vm_compute; reflexivity. Qed.

Example round_numpy : Numpy.round 2.675 2 = 2.68 /\ Numpy.round 0.25 1 = 0.2.
Proof. split; vm_compute; reflexivity. Qed.

Example health_0_0_80 :
  Float64.calculate_project_health 0 0 80 = Float64.Ok ("Red"%string, 3%Z).
Proof. vm_compute. reflexivity. Qed.

Example health_scenarios :
  Float64.calculate_project_health 0.938 0.006 70 = Float64.Ok ("Red"%string, 16%Z)
  /\ Float64.calculate_project_health 1.05 1.02 10
     = Float64.Ok ("Green"%string, 98%Z)
  /\ Float64.calculate_project_health 1 0.90 50 = Float64.Ok ("Green"%string, 75%Z)
  /\ Float64.calculate_project_health 1 0.75 100
     = Float64.Ok ("Yellow"%string, 50%Z).
Proof. repeat split; vm_compute; reflexivity. Qed.

(** An infinite risk score makes the score infinite, and [int] raises. *)
Example health_raises :
  Float64.calculate_project_health 1 1 neg_infinity
  = Float64.Raise Float64.OverflowError.
Proof. vm_compute. reflexivity. Qed.

Example risk_005 (np_mean : list float -> float) (np_round : float -> nat -> float) :
  Float64.calculate_risk_score np_mean np_round 0.05 0 [] = 0.1.
Proof. vm_compute. reflexivity. Qed.

Example risk_045 (np_mean : list float -> float) :
  np_mean [0] = 0 ->
  Float64.calculate_risk_score np_mean Numpy.round 0.45 0 [0] = 1.3.
Proof.
  intros H. unfold Float64.calculate_risk_score. rewrite H.
  vm_compute. reflexivity.
Qed.

Example risk_sample (np_mean : list float -> float) :
  np_mean [25; 30; 20] = 25 ->
  Float64.calculate_risk_score np_mean Numpy.round (-50) (-5000) [25; 30; 20] = 70.
Proof.
  intros H. unfold Float64.calculate_risk_score. rewrite H.
  vm_compute. reflexivity.
Qed.

(** Binary64 and exact arithmetic part ways: at [(0, 0, 80)] the exact score
    is 4, the binary64 score is just below it and truncates to 3. *)
Example binary64_is_not_exact :
  Float64.exact 80 = Some 80%Q
  /\ Float64.calculate_project_health 0 0 80 = Float64.Ok ("Red"%string, 3%Z)
  /\ snd (calculate_project_health 0 0 80%Q) = 4%Z.
Proof. repeat split; vm_compute; reflexivity. Qed.

End Binary64Values.
